(** * Taiyi chain SDK (JavaScript client): request signing and session handshake

    A shallow embedding of [src/main.js].  JavaScript values are modelled by
    the small dynamic type [JsVal]; the class [TaiyiClient] becomes the record
    [Client]; every method becomes a computation in a state-and-exception
    monad [M] that threads the client's private fields and the outside world
    (clock, random source, network).  An [async] method that throws is a
    rejected promise, and [await] hands the rejection on: both are the
    [Thrown] outcome, and the fields assigned before the throw stay assigned.

    The runtime's own objects ([Headers], [Request], [URL], [Response]) are
    modelled by the part of their standard behaviour the client relies on;
    SHA-256 and base64 are computed; the clock, the random strings, the
    signature primitive, the JSON decoder and the network are parameters
    ([Platform]).  A string holds the bytes of its UTF-8 encoding, a number
    is an integer, and [connectToDomain] takes its port as a number. *)

From Stdlib Require Import ZArith List String Ascii Bool Lia.
From Stdlib Require Import DecimalString.
Import ListNotations.

Local Open Scope Z_scope.
Local Open Scope string_scope.

(* ================================================================== *)
(** * Bytes, base64 and SHA-256 *)
(* ================================================================== *)

Module Bytes.

(** A byte is a [Z] in [0, 255]; JS strings are modelled by [string],
    one [ascii] per byte of the UTF-8 encoding. *)
Definition of_string (s : string) : list Z :=
  map (fun a => Z.of_N (N_of_ascii a)) (list_ascii_of_string s).

Definition to_ascii (b : Z) : ascii := ascii_of_N (Z.to_N b).

End Bytes.

Module Base64.

Definition alphabet : string :=
  "ABCDEFGHIJKLMNOPQRSTUVWXYZabcdefghijklmnopqrstuvwxyz0123456789+/".

Definition digit (i : Z) : ascii :=
  match String.get (Z.to_nat i) alphabet with
  | Some a => a
  | None => "="%char
  end.

(** Three bytes give four digits; a tail of one or two bytes is padded
    with [=]. *)
Fixpoint encode (bs : list Z) : string :=
  match bs with
  | [] => ""
  | [a] =>
      String (digit (Z.shiftr a 2))
     (String (digit (Z.shiftl (Z.land a 3) 4)) "==")
  | [a; b] =>
      String (digit (Z.shiftr a 2))
     (String (digit (Z.lor (Z.shiftl (Z.land a 3) 4) (Z.shiftr b 4)))
     (String (digit (Z.shiftl (Z.land b 15) 2)) "="))
  | a :: b :: c :: rest =>
      String (digit (Z.shiftr a 2))
     (String (digit (Z.lor (Z.shiftl (Z.land a 3) 4) (Z.shiftr b 4)))
     (String (digit (Z.lor (Z.shiftl (Z.land b 15) 2) (Z.shiftr c 6)))
     (String (digit (Z.land c 63)) (encode rest))))
  end.

End Base64.

Module SHA256.

Definition mask32 : Z := 0xFFFFFFFF.
Definition w32 (x : Z) : Z := Z.land x mask32.
Definition add32 (x y : Z) : Z := w32 (x + y).
Definition rotr (n x : Z) : Z :=
  Z.lor (Z.shiftr x n) (w32 (Z.shiftl x (32 - n))).
Definition not32 (x : Z) : Z := Z.lxor x mask32.

Definition Ch (x y z : Z) : Z := Z.lxor (Z.land x y) (Z.land (not32 x) z).
Definition Maj (x y z : Z) : Z :=
  Z.lxor (Z.lxor (Z.land x y) (Z.land x z)) (Z.land y z).
Definition Sigma0 (x : Z) : Z :=
  Z.lxor (Z.lxor (rotr 2 x) (rotr 13 x)) (rotr 22 x).
Definition Sigma1 (x : Z) : Z :=
  Z.lxor (Z.lxor (rotr 6 x) (rotr 11 x)) (rotr 25 x).
Definition sigma0 (x : Z) : Z :=
  Z.lxor (Z.lxor (rotr 7 x) (rotr 18 x)) (Z.shiftr x 3).
Definition sigma1 (x : Z) : Z :=
  Z.lxor (Z.lxor (rotr 17 x) (rotr 19 x)) (Z.shiftr x 10).

(** The round constants are the first 32 bits of the fractional parts of
    the cube roots of the first 64 primes, the initial hash value those of
    the square roots of the first 8 primes. *)
Definition isPrime (n : nat) : bool :=
  forallb (fun d => negb (Nat.eqb (Nat.modulo n d) 0)) (seq 2 (n - 2)).

Definition primes64 : list Z :=
  Eval vm_compute in map Z.of_nat (filter isPrime (seq 2 310)).

Fixpoint cbrtBits (bits : nat) (n acc : Z) : Z :=
  match bits with
  | O => acc
  | S b =>
      let t := Z.lor acc (Z.shiftl 1 (Z.of_nat b)) in
      cbrtBits b n (if Z.leb (t * t * t) n then t else acc)
  end.

Definition fracCbrt (p : Z) : Z := w32 (cbrtBits 36 (Z.shiftl p 96) 0).
Definition fracSqrt (p : Z) : Z := w32 (Z.sqrt (Z.shiftl p 64)).

Definition K : list Z := Eval vm_compute in map fracCbrt primes64.

Definition H0 : list Z := Eval vm_compute in map fracSqrt (firstn 8 primes64).

(** Padding: a 1 bit, zeros up to 56 mod 64, the bit length on 8 bytes. *)
Definition be_bytes (n : nat) (x : Z) : list Z :=
  map (fun i => Z.land (Z.shiftr x (8 * Z.of_nat i)) 255) (rev (seq 0 n)).

Definition pad (msg : list Z) : list Z :=
  let len := Z.of_nat (List.length msg) in
  let zeros := Z.to_nat ((55 - len) mod 64) in
  msg ++ [0x80] ++ repeat 0 zeros ++ be_bytes 8 (8 * len).

Fixpoint words (bs : list Z) : list Z :=
  match bs with
  | a :: b :: c :: d :: rest =>
      Z.lor (Z.shiftl a 24) (Z.lor (Z.shiftl b 16) (Z.lor (Z.shiftl c 8) d))
      :: words rest
  | _ => []
  end.

(** The message schedule, kept newest word first. *)
Fixpoint extend (n : nat) (rw : list Z) : list Z :=
  match n with
  | O => rw
  | S n' =>
      let w := add32 (add32 (sigma1 (nth 1 rw 0)) (nth 6 rw 0))
                     (add32 (sigma0 (nth 14 rw 0)) (nth 15 rw 0)) in
      extend n' (w :: rw)
  end.

Definition schedule (block : list Z) : list Z :=
  rev (extend 48 (rev block)).

Definition Regs : Type := (Z * Z * Z * Z * Z * Z * Z * Z)%type.

Definition round (r : Regs) (kw : Z * Z) : Regs :=
  let '(a, b, c, d, e, f, g, h) := r in
  let t1 := add32 (add32 (add32 h (Sigma1 e)) (add32 (Ch e f g) (fst kw)))
                  (snd kw) in
  let t2 := add32 (Sigma0 a) (Maj a b c) in
  (add32 t1 t2, a, b, c, add32 d t1, e, f, g).

Definition compress (hs : list Z) (block : list Z) : list Z :=
  match hs with
  | [a; b; c; d; e; f; g; h] =>
      let '(a', b', c', d', e', f', g', h') :=
        fold_left round (combine K (schedule block)) (a, b, c, d, e, f, g, h) in
      [ add32 a a'; add32 b b'; add32 c c'; add32 d d';
        add32 e e'; add32 f f'; add32 g g'; add32 h h' ]
  | _ => hs
  end.

Fixpoint blocks (fuel : nat) (ws : list Z) (hs : list Z) : list Z :=
  match fuel, ws with
  | S fuel', _ :: _ => blocks fuel' (skipn 16 ws) (compress hs (firstn 16 ws))
  | _, _ => hs
  end.

(** The digest: eight 32-bit words, i.e. 32 bytes. *)
Definition digest_words (msg : list Z) : list Z :=
  let ws := words (pad msg) in
  blocks (List.length ws) ws H0.

Definition digest (msg : list Z) : list Z :=
  flat_map (be_bytes 4) (digest_words msg).

End SHA256.

Definition hexdigit (i : Z) : ascii :=
  match String.get (Z.to_nat i) "0123456789abcdef" with
  | Some a => a
  | None => "?"%char
  end.

Definition hex_of_bytes (bs : list Z) : string :=
  string_of_list_ascii
    (flat_map (fun b => [hexdigit (Z.shiftr b 4); hexdigit (Z.land b 15)]) bs).

(* ================================================================== *)
(** * JavaScript values *)
(* ================================================================== *)

Set Warnings "-register-all".

(** The fragment of JavaScript values the client handles: primitives, plain
    objects (fields in property-enumeration order) and [Headers] instances.
    Numbers are the integers; [JHeaders] carries the header list in the
    order of the [append] calls. *)
Inductive JsVal : Type :=
| JUndefined
| JNull
| JBool (b : bool)
| JNum (n : Z)
| JStr (s : string)
| JObj (fields : list (string * JsVal))
| JHeaders (entries : list (string * string)).

(** What a [throw] (or a rejected promise) carries. *)
Inductive JsError : Type :=
| Error (message : string)            (* [new Error(message)], thrown by the client *)
| TypeError (message : string)        (* raised by the runtime *)
| ReferenceError (message : string)   (* raised by the runtime *)
| SyntaxError (message : string)      (* raised by the JSON decoder *)
| PrimitiveFailure (name : string).   (* an external primitive failed *)

Inductive Outcome (A : Type) : Type :=
| Returned (a : A)
| Thrown (e : JsError).
Arguments Returned {A} a.
Arguments Thrown {A} e.

Module Js.

(** Number-to-string on the integers: every digit, in decimal.  This is what
    the runtime prints for the safe integers (below 2^53 in absolute value);
    from 10^21 on the runtime prints an exponent form, so a statement that
    names the text of a number bounds the number. *)
Definition numToString (n : Z) : string := NilZero.string_of_int (Z.to_int n).

(** ToBoolean. *)
Definition truthy (v : JsVal) : bool :=
  match v with
  | JUndefined | JNull => false
  | JBool b => b
  | JNum n => negb (Z.eqb n 0)
  | JStr s => negb (String.eqb s "")
  | JObj _ | JHeaders _ => true
  end.

(** ToString. *)
Definition toString (v : JsVal) : string :=
  match v with
  | JUndefined => "undefined"
  | JNull => "null"
  | JBool true => "true"
  | JBool false => "false"
  | JNum n => numToString n
  | JStr s => s
  | JObj _ => "[object Object]"
  | JHeaders _ => "[object Headers]"
  end.

(** [lit === v] for a string literal [lit]. *)
Definition strictEqStr (lit : string) (v : JsVal) : bool :=
  match v with
  | JStr s => String.eqb lit s
  | _ => false
  end.

(** [a !== b] when one side is a primitive; two objects are compared by
    identity, which the fragment does not track, and count as distinct. *)
Definition strictNeq (a b : JsVal) : bool :=
  match a, b with
  | JUndefined, JUndefined | JNull, JNull => false
  | JBool x, JBool y => negb (Bool.eqb x y)
  | JNum x, JNum y => negb (Z.eqb x y)
  | JStr x, JStr y => negb (String.eqb x y)
  | _, _ => true
  end.

Definition isDigit (a : ascii) : bool :=
  let n := nat_of_ascii a in (Nat.leb 48 n) && (Nat.leb n 57).

Fixpoint allZeroDigits (s : string) : bool :=
  match s with
  | EmptyString => true
  | String a r => Ascii.eqb a "0" && allZeroDigits r
  end.

(** [0 != v], the loose comparison of [#parseResponse].  A string is
    converted to a number first; the strings taken for zero are the empty
    one and the runs of the digit 0 (signs, blanks, fractions and exponents
    are left out). *)
Definition looseNeqZero (v : JsVal) : bool :=
  match v with
  | JUndefined | JNull => true
  | JBool b => b
  | JNum n => negb (Z.eqb n 0)
  | JStr s => negb (allZeroDigits s)
  | JObj _ | JHeaders _ => true
  end.

Fixpoint lookup (k : string) (fs : list (string * JsVal)) : JsVal :=
  match fs with
  | [] => JUndefined
  | (k', v) :: r => if String.eqb k k' then v else lookup k r
  end.

Definition hasField (k : string) (fs : list (string * JsVal)) : bool :=
  existsb (fun kv => String.eqb k (fst kv)) fs.

(** [o.k = v] on a plain object: an existing property keeps its place. *)
Fixpoint assign (k : string) (v : JsVal) (fs : list (string * JsVal))
  : list (string * JsVal) :=
  match fs with
  | [] => [(k, v)]
  | (k', v') :: r =>
      if String.eqb k k' then (k, v) :: r else (k', v') :: assign k v r
  end.

(** [v[k]]: reading a property of [undefined] or [null] throws; the
    primitives and [Headers] have none of the names the client reads. *)
Definition getProp (v : JsVal) (k : string) : Outcome JsVal :=
  match v with
  | JUndefined | JNull =>
      Thrown (TypeError ("Cannot read properties of " ++ toString v))
  | JObj fs => Returned (lookup k fs)
  | _ => Returned JUndefined
  end.

(** [f(...)] where [f] evaluated to [v]: the fragment holds no function
    value, so the call throws. *)
Definition callValue (what : string) (v : JsVal) : Outcome JsVal :=
  Thrown (TypeError (what ++ " is not a function")).

End Js.

(* ================================================================== *)
(** * JSON.stringify *)
(* ================================================================== *)

Module JSON.

Definition hexdigit (i : Z) : ascii :=
  match String.get (Z.to_nat i) "0123456789abcdef" with
  | Some a => a
  | None => "0"%char
  end.

Definition dquote : ascii := ascii_of_nat 34.
Definition backslash : ascii := ascii_of_nat 92.

(** QuoteJSONString, one character at a time. *)
Definition escape (a : ascii) : string :=
  let n := Z.of_N (N_of_ascii a) in
  if Z.eqb n 34 then String backslash (String dquote "")
  else if Z.eqb n 92 then String backslash (String backslash "")
  else if Z.eqb n 8 then String backslash "b"
  else if Z.eqb n 12 then String backslash "f"
  else if Z.eqb n 10 then String backslash "n"
  else if Z.eqb n 13 then String backslash "r"
  else if Z.eqb n 9 then String backslash "t"
  else if Z.ltb n 32 then
    String backslash
      ("u00" ++ String (hexdigit (Z.shiftr n 4))
               (String (hexdigit (Z.land n 15)) ""))
  else String a "".

Fixpoint escapeAll (s : string) : string :=
  match s with
  | EmptyString => ""
  | String a r => escape a ++ escapeAll r
  end.

Definition quote (s : string) : string :=
  String dquote (escapeAll s ++ String dquote "").

(** [None] is the [undefined] that [JSON.stringify(undefined)] returns;
    a property whose value serialises to [undefined] is left out. *)
Fixpoint stringify (v : JsVal) : option string :=
  match v with
  | JUndefined => None
  | JNull => Some "null"
  | JBool true => Some "true"
  | JBool false => Some "false"
  | JNum n => Some (Js.numToString n)
  | JStr s => Some (quote s)
  | JObj fs =>
      let members :=
        (fix members (fs : list (string * JsVal)) : list string :=
           match fs with
           | [] => []
           | (k, x) :: r =>
               match stringify x with
               | Some t => (quote k ++ ":" ++ t) :: members r
               | None => members r
               end
           end) fs in
      Some ("{" ++ String.concat "," members ++ "}")
  | JHeaders _ => Some "{}"
  end.

(** Where the client uses the result as a string. *)
Definition stringifyStr (v : JsVal) : string :=
  match stringify v with
  | Some s => s
  | None => "undefined"
  end.

End JSON.

(* ================================================================== *)
(** * The runtime's objects: URL, Headers, Request, Response *)
(* ================================================================== *)

Module Text.

Definition code (a : ascii) : nat := nat_of_ascii a.
Definition isUpper (a : ascii) : bool := Nat.leb 65 (code a) && Nat.leb (code a) 90.
Definition isLower (a : ascii) : bool := Nat.leb 97 (code a) && Nat.leb (code a) 122.
Definition isAlpha (a : ascii) : bool := isUpper a || isLower a.

Definition lower (a : ascii) : ascii :=
  if isUpper a then ascii_of_nat (code a + 32) else a.
Definition upper (a : ascii) : ascii :=
  if isLower a then ascii_of_nat (code a - 32) else a.

Fixpoint mapStr (f : ascii -> ascii) (s : string) : string :=
  match s with
  | EmptyString => EmptyString
  | String a r => String (f a) (mapStr f r)
  end.

Fixpoint allStr (f : ascii -> bool) (s : string) : bool :=
  match s with
  | EmptyString => true
  | String a r => f a && allStr f r
  end.

Fixpoint memStr (a : ascii) (s : string) : bool :=
  match s with
  | EmptyString => false
  | String b r => Ascii.eqb a b || memStr a r
  end.

(** Equality up to the case of ASCII letters. *)
Definition ieq (s t : string) : bool :=
  String.eqb (mapStr lower s) (mapStr lower t).

(** [span stop s]: the longest prefix free of [stop] characters, and the
    rest. *)
Fixpoint span (stop : ascii -> bool) (s : string) : string * string :=
  match s with
  | EmptyString => (EmptyString, EmptyString)
  | String a r =>
      if stop a then (EmptyString, s)
      else let (p, q) := span stop r in (String a p, q)
  end.

End Text.

Module URL.

Definition isSchemeChar (a : ascii) : bool :=
  Text.isAlpha a || Js.isDigit a || Text.memStr a "+-.".

(** The input after its scheme and colon, when it starts with one. *)
Fixpoint afterColon (s : string) : option string :=
  match s with
  | EmptyString => None
  | String a r =>
      if Ascii.eqb a ":" then Some r
      else if isSchemeChar a then afterColon r
      else None
  end.

Definition afterScheme (s : string) : option string :=
  match s with
  | String a r => if Text.isAlpha a then afterColon r else None
  | EmptyString => None
  end.

Definition endsAuthority (a : ascii) : bool := Text.memStr a "/?#".
Definition endsPath (a : ascii) : bool := Text.memStr a "?#".

(** [new URL(s).pathname] with no base URL: [None] when the constructor
    throws.  A string with no scheme is relative and is refused; after
    [scheme://authority] the path runs to the first [?] or [#] and is [/]
    when empty.  Host and port validation, dot-segment removal and
    percent-encoding are the runtime's and are left out: the model accepts
    some strings the runtime refuses, never the converse on the strings
    with no scheme.  The path returned is the runtime's when the host is
    made of letters, the port is a port number and the path is made of
    letters, digits, [/], [-] and [_]; on other texts the runtime may encode
    or shorten the path, so a statement that names the path keeps to these
    texts. *)
Definition pathname (s : string) : option string :=
  match afterScheme s with
  | None => None
  | Some (String "/" (String "/" r)) =>
      let (authority, tail) := Text.span endsAuthority r in
      if String.eqb authority "" then None
      else
        let path := fst (Text.span endsPath tail) in
        Some (if String.eqb path "" then "/" else path)
  | Some rest => Some (fst (Text.span endsPath rest))
  end.

End URL.

Module Headers.

(** A header list, in the order of the [append] calls. *)
Definition t : Type := list (string * string).

Definition append (h : t) (name value : string) : t := (h ++ [(name, value)])%list.

(** [new Headers(init)] from a plain object: one header per property. *)
Definition ofObject (fields : list (string * JsVal)) : t :=
  map (fun kv => (fst kv, Js.toString (snd kv))) fields.

(** The values stored under a name; header names compare without case. *)
Definition values (h : t) (name : string) : list string :=
  map snd (filter (fun kv => Text.ieq (fst kv) name) h).

Definition has (h : t) (name : string) : bool :=
  existsb (fun kv => Text.ieq (fst kv) name) h.

(** [h.get(name)]: the values joined by a comma and a space, or [null]. *)
Definition get (h : t) (name : string) : option string :=
  match values h name with
  | [] => None
  | vs => Some (String.concat ", " vs)
  end.

End Headers.

Record Request : Type := {
  req_url : string;
  req_method : string;
  req_headers : Headers.t;
  req_body : option string
}.

(** The [options] object handed to [new Request(url, options)]. *)
Record RequestInit : Type := {
  init_method : JsVal;
  init_headers : option Headers.t;
  init_body : option string
}.

Module Fetch.

Definition isTokenChar (a : ascii) : bool :=
  Text.isAlpha a || Js.isDigit a || Text.memStr a "!#$%&'*+-.^_`|~".

Definition isToken (s : string) : bool :=
  negb (String.eqb s "") && Text.allStr isTokenChar s.

Definition forbiddenMethod (m : string) : bool :=
  Text.ieq m "CONNECT" || Text.ieq m "TRACE" || Text.ieq m "TRACK".

(** DELETE, GET, HEAD, OPTIONS, POST and PUT are upper-cased; any other
    method keeps its spelling. *)
Definition normalize (m : string) : string :=
  if existsb (Text.ieq m) ["DELETE"; "GET"; "HEAD"; "OPTIONS"; "POST"; "PUT"]
  then Text.mapStr Text.upper m else m.

Definition textPlain : string := "text/plain;charset=UTF-8".

(** [new Request(url, options)].  The method defaults to GET; a body on a
    GET or HEAD request is refused; a string body brings the content type
    [text/plain;charset=UTF-8] unless the headers already name one.
    [req_url] is the URL text handed to the constructor.  The runtime's
    [request.url] is the serialised URL: the same text when the host is in
    lower-case letters, the port is not the scheme's default and the path is
    made of letters, digits, [/], [-] and [_]; otherwise the host is
    lower-cased, a default port dropped and the path encoded.  A statement
    that names the URL of a request keeps to the former texts. *)
Definition newRequest (url : string) (o : RequestInit) : Outcome Request :=
  let m := match init_method o with
           | JUndefined => "GET"
           | v => Js.toString v
           end in
  if negb (isToken m) || forbiddenMethod m then
    Thrown (TypeError ("'" ++ m ++ "' is not a valid HTTP method"))
  else
    let m := normalize m in
    let hs := match init_headers o with Some h => h | None => [] end in
    match init_body o with
    | None =>
        Returned {| req_url := url; req_method := m;
                    req_headers := hs; req_body := None |}
    | Some b =>
        if String.eqb m "GET" || String.eqb m "HEAD" then
          Thrown (TypeError "Request with GET/HEAD method cannot have body")
        else
          let hs := if Headers.has hs "Content-Type" then hs
                    else Headers.append hs "Content-Type" textPlain in
          Returned {| req_url := url; req_method := m;
                      req_headers := hs; req_body := Some b |}
    end.

(** [request.headers.append(name, value)]. *)
Definition appendHeader (r : Request) (name value : string) : Request :=
  {| req_url := req_url r; req_method := req_method r;
     req_headers := Headers.append (req_headers r) name value;
     req_body := req_body r |}.

End Fetch.

(** What [fetch] resolves to.  [ok] is a boolean property of a response. *)
Record Response : Type := {
  resp_ok : bool;
  resp_status : Z;
  resp_statusText : string;
  resp_body : string
}.

Inductive FetchOutcome : Type :=
| NetworkFailure (reason : string)
| Responded (r : Response).

(* ================================================================== *)
(** * The client's state, the outside world, and the monad *)
(* ================================================================== *)

(** The private fields of [TaiyiClient]. *)
Record Client : Type := {
  accessID : string;
  privateKey : list Z;
  apiBase : string;
  domain : string;
  nonce : string;
  sessionID : JsVal;
  timeout : JsVal;
  localIP : JsVal
}.

(** The external primitives: the clock, the random-string library, the
    signature primitive, the JSON decoder and the network. *)
Record Platform : Type := {
  toISOString : nat -> string;             (* of the n-th [new Date()] *)
  Strings_random : nat -> nat -> string;   (* the n-th draw, of a given length *)
  ed25519_sign : string -> list Z -> option string;
  JSON_parse : string -> option JsVal;
  transport : list Request -> Request -> FetchOutcome
}.

(** The world outside the client.  [sent] logs the requests handed to
    [fetch], oldest first.  [signed] is a ghost log: the objects for which
    [#base64Signature] produced a signature, oldest first. *)
Record World : Type := {
  dates : nat;
  draws : nat;
  sent : list Request;
  signed : list JsVal
}.

Definition M (A : Type) : Type := Client -> World -> Outcome A * Client * World.

Definition ret {A} (a : A) : M A := fun c w => (Returned a, c, w).

Definition throw {A} (e : JsError) : M A := fun c w => (Thrown e, c, w).

Definition bind {A B} (m : M A) (k : A -> M B) : M B :=
  fun c w =>
    match m c w with
    | (Returned a, c', w') => k a c' w'
    | (Thrown e, c', w') => (Thrown e, c', w')
    end.

Definition lift {A} (o : Outcome A) : M A := fun c w => (o, c, w).

Definition this : M Client := fun c w => (Returned c, c, w).

Definition update (f : Client -> Client) : M unit := fun c w => (Returned tt, f c, w).

(** A promise that is neither awaited nor returned: the callee's effects
    take place, its result and its rejection are lost to the caller. *)
Definition detached {A} (m : M A) : M unit :=
  fun c w => let '(_, c', w') := m c w in (Returned tt, c', w').

Notation "x <- m ;; k" := (bind m (fun x => k))
  (at level 61, m at next level, right associativity).
Notation "' pat <- m ;; k" := (bind m (fun x => match x with pat => k end))
  (at level 61, pat pattern, m at next level, right associativity).
Notation "m ;;; k" := (bind m (fun _ => k))
  (at level 61, right associativity).

Definition set_apiBase (v : string) (c : Client) : Client :=
  {| accessID := accessID c; privateKey := privateKey c; apiBase := v;
     domain := domain c; nonce := nonce c; sessionID := sessionID c;
     timeout := timeout c; localIP := localIP c |}.
Definition set_domain (v : string) (c : Client) : Client :=
  {| accessID := accessID c; privateKey := privateKey c; apiBase := apiBase c;
     domain := v; nonce := nonce c; sessionID := sessionID c;
     timeout := timeout c; localIP := localIP c |}.
Definition set_nonce (v : string) (c : Client) : Client :=
  {| accessID := accessID c; privateKey := privateKey c; apiBase := apiBase c;
     domain := domain c; nonce := v; sessionID := sessionID c;
     timeout := timeout c; localIP := localIP c |}.
Definition set_sessionID (v : JsVal) (c : Client) : Client :=
  {| accessID := accessID c; privateKey := privateKey c; apiBase := apiBase c;
     domain := domain c; nonce := nonce c; sessionID := v;
     timeout := timeout c; localIP := localIP c |}.
Definition set_timeout (v : JsVal) (c : Client) : Client :=
  {| accessID := accessID c; privateKey := privateKey c; apiBase := apiBase c;
     domain := domain c; nonce := nonce c; sessionID := sessionID c;
     timeout := v; localIP := localIP c |}.
Definition set_localIP (v : JsVal) (c : Client) : Client :=
  {| accessID := accessID c; privateKey := privateKey c; apiBase := apiBase c;
     domain := domain c; nonce := nonce c; sessionID := sessionID c;
     timeout := timeout c; localIP := v |}.

(* ================================================================== *)
(** * The constants of main.js *)
(* ================================================================== *)

Definition APIVersion : string := "1".
Definition projectName : string := "Taiyi".
Definition headerNameSession : string := projectName ++ "-Session".
Definition headerNameTimestamp : string := projectName ++ "-Timestamp".
Definition headerNameSignature : string := projectName ++ "-Signature".
Definition headerNameSignatureAlgorithm : string := projectName ++ "-SignatureAlgorithm".
Definition defaultDomainName : string := "system".
Definition defaultDomainHost : string := "localhost".
Definition signatureMethodEd25519 : string := "ed25519".
Definition headerContentType : string := "Content-Type".
Definition contentTypeJSON : string := "application/json".
Definition payloadPathErrorCode : string := "error_code".
Definition payloadPathErrorMessage : string := "message".
Definition payloadPathData : string := "data".

(** [NewClient(accessID, privateKey)]: the constructor's assignments. *)
Definition NewClient (id : string) (key : list Z) : Client :=
  {| accessID := id; privateKey := key; apiBase := ""; domain := "";
     nonce := ""; sessionID := JStr ""; timeout := JNum 0; localIP := JStr "" |}.

Definition emptyWorld : World :=
  {| dates := 0; draws := 0; sent := []; signed := [] |}.

(* ================================================================== *)
(** * The methods of TaiyiClient *)
(* ================================================================== *)

Module Runtime.

(** [new URL(url)], reduced to the [pathname] the client reads. *)
Definition newURL (url : JsVal) : Outcome string :=
  match URL.pathname (Js.toString url) with
  | Some p => Returned p
  | None => Thrown (TypeError "Invalid URL")
  end.

(** [headers.append(name, value)] on whatever value [headers] holds: only
    a [Headers] instance has the method. *)
Definition callAppend (headers : JsVal) (name value : string) : Outcome Headers.t :=
  match headers with
  | JHeaders h => Returned (Headers.append h name value)
  | JUndefined | JNull =>
      Thrown (TypeError ("Cannot read properties of " ++ Js.toString headers))
  | _ => Thrown (TypeError "headers.append is not a function")
  end.

(** Reading an identifier that no scope declares. *)
Definition undeclared (name : string) : Outcome JsVal :=
  Thrown (ReferenceError (name ++ " is not defined")).

(** [const { session, timeout, address } = v]. *)
Definition destructure3 (v : JsVal) (a b c : string)
  : Outcome (JsVal * JsVal * JsVal) :=
  match Js.getProp v a, Js.getProp v b, Js.getProp v c with
  | Returned x, Returned y, Returned z => Returned (x, y, z)
  | Thrown e, _, _ | _, Thrown e, _ | _, _, Thrown e => Thrown e
  end.

Definition btoa (s : string) : string := Base64.encode (Bytes.of_string s).

(** [CryptoJS.enc.Base64.stringify(CryptoJS.SHA256(s))]. *)
Definition sha256Base64 (s : string) : string :=
  Base64.encode (SHA256.digest (Bytes.of_string s)).

End Runtime.

Section TaiyiClient.

Variable P : Platform.

(** [new Date().toISOString()]. *)
Definition nowISO : M string := fun c w =>
  (Returned (toISOString P (dates w)), c,
   {| dates := S (dates w); draws := draws w; sent := sent w; signed := signed w |}).

Definition recordSigned (obj : JsVal) : M unit := fun c w =>
  (Returned tt, c,
   {| dates := dates w; draws := draws w; sent := sent w;
      signed := (signed w ++ [obj])%list |}).

(** [fetch(request)]: the request goes out, then the network answers. *)
Definition fetch (request : Request) : M Response := fun c w =>
  let w' := {| dates := dates w; draws := draws w;
               sent := (sent w ++ [request])%list; signed := signed w |} in
  match transport P (sent w) request with
  | NetworkFailure reason => (Thrown (TypeError reason), c, w')
  | Responded r => (Returned r, c, w')
  end.

(** [resp.json()] and [JSON.parse(text)]. *)
Definition parseJSON (text : string) : M JsVal :=
  match JSON_parse P text with
  | Some v => ret v
  | None => throw (SyntaxError "Unexpected token in JSON")
  end.

Definition newNonce : M string :=
  let nonceLength := 16%nat in
  fun c w =>
    (Returned (Strings_random P (draws w) nonceLength), c,
     {| dates := dates w; draws := S (draws w); sent := sent w; signed := signed w |}).

Definition base64Signature (obj : JsVal) : M string :=
  let content := JSON.stringifyStr obj in
  c <- this ;;
  match ed25519_sign P content (privateKey c) with
  | None => throw (PrimitiveFailure "ed25519.sign")
  | Some signed => recordSigned obj ;;; ret (Runtime.btoa signed)
  end.

Definition mapToAPI (path : string) : M string :=
  c <- this ;; ret (apiBase c ++ path).

Definition mapToDomain (path : string) : M string :=
  c <- this ;; ret (apiBase c ++ "/domains/" ++ domain c ++ path).

Definition parseResponse (request : Request) : M JsVal :=
  resp <- fetch request ;;
  ok <- lift (Js.callValue "resp.ok" (JBool (resp_ok resp))) ;;
  if negb (Js.truthy ok) then
    throw (Error ("fetch result failed with status "
                  ++ Js.numToString (resp_status resp) ++ ": "
                  ++ resp_statusText resp))
  else
    payload <- parseJSON (resp_body resp) ;;
    code <- lift (Js.getProp payload payloadPathErrorCode) ;;
    if Js.looseNeqZero code then
      message <- lift (Js.getProp payload payloadPathErrorMessage) ;;
      throw (Error ("fetch faile: " ++ Js.toString message))
    else ret payload.

Definition getResult (request : Request) : M JsVal :=
  payload <- parseResponse request ;;
  data <- lift (Js.getProp payload payloadPathData) ;;
  parseJSON (Js.toString data).

(** The call to [#parseResponse] is neither awaited nor returned. *)
Definition validateResult (request : Request) : M JsVal :=
  detached (parseResponse request) ;;; ret JUndefined.

Definition isBodyMethod (method : JsVal) : bool :=
  Js.strictEqStr "post" method || Js.strictEqStr "put" method
  || Js.strictEqStr "delete" method || Js.strictEqStr "patch" method.

Definition signatureRequest (method url payload : JsVal) : M Request :=
  pathname <- lift (Runtime.newURL url) ;;
  timestamp <- nowISO ;;
  c <- this ;;
  let signatureContent :=
    [ ("id", sessionID c);
      ("method", method);
      ("url", JStr pathname);
      ("body", JStr "");
      ("access", JStr (accessID c));
      ("timestamp", JStr timestamp);
      ("nonce", JStr (nonce c));
      ("signature_algorithm", JStr signatureMethodEd25519) ] in
  let bodyContent := if Js.truthy payload then JSON.stringifyStr payload else "" in
  let options :=
    if Js.truthy payload then
      {| init_method := method;
         init_headers :=
           Some (Headers.ofObject [("headerContentType", JStr contentTypeJSON)]);
         init_body := Some bodyContent |}
    else
      {| init_method := method; init_headers := None; init_body := None |} in
  request <- lift (Fetch.newRequest (Js.toString url) options) ;;
  let signatureContent :=
    if isBodyMethod method then
      Js.assign "body" (JStr (Runtime.sha256Base64 bodyContent)) signatureContent
    else signatureContent in
  signature <- base64Signature (JObj signatureContent) ;;
  let request := Fetch.appendHeader request headerNameSession (Js.toString (sessionID c)) in
  let request := Fetch.appendHeader request headerNameTimestamp timestamp in
  let request := Fetch.appendHeader request headerNameSignatureAlgorithm signatureMethodEd25519 in
  let request := Fetch.appendHeader request headerNameSignature signature in
  ret request.

Definition rawRequest (method : JsVal) (path : string) (headers payload : JsVal)
  : M JsVal :=
  url <- mapToAPI path ;;
  headers <- lift (Runtime.callAppend headers headerContentType contentTypeJSON) ;;
  nil <- lift (Runtime.undeclared "nil") ;;
  let options :=
    {| init_method := method;
       init_headers := Some headers;
       init_body := if Js.strictNeq nil payload then JSON.stringify payload else None |} in
  req <- lift (Fetch.newRequest url options) ;;
  getResult req.

Definition peekRequest (method url : JsVal) : M bool :=
  request <- signatureRequest method url JNull ;;
  resp <- fetch request ;;
  ret (resp_ok resp).

Definition doRequest (method url : JsVal) : M JsVal :=
  request <- signatureRequest method url JNull ;;
  validateResult request.

Definition doRequestWithPayload (method url payload : JsVal) : M JsVal :=
  request <- signatureRequest method url payload ;;
  validateResult request.

Definition fetchResponse (method url : JsVal) : M JsVal :=
  request <- signatureRequest method url JNull ;;
  getResult request.

Definition fetchResponseWithPayload (method url payload : JsVal) : M JsVal :=
  request <- signatureRequest method url payload ;;
  getResult request.

Definition handshakeContent (c : Client) (timestamp : string) : JsVal :=
  JObj [ ("access", JStr (accessID c));
         ("timestamp", JStr timestamp);
         ("nonce", JStr (nonce c));
         ("signature_algorithm", JStr signatureMethodEd25519) ].

(** The end of [connectToDomain]: what is done with the awaited result,
    [const { session, timeout, address } = ...] and the three stores. *)
Definition storeSession (r : JsVal) : M unit :=
  '(session, timeout, address) <-
    lift (Runtime.destructure3 r "session" "timeout" "address") ;;
  update (set_sessionID session) ;;;
  update (set_timeout timeout) ;;;
  update (set_localIP address) ;;;
  ret tt.

Definition connectToDomain (host : string) (port : Z) (domainName : string)
  : M unit :=
  let host := if String.eqb "" host then defaultDomainHost else host in
  if String.eqb "" domainName then throw (Error "domain name omit")
  else if Z.leb port 0 || Z.gtb port 0xFFFF then
    throw (Error ("invalid port " ++ Js.numToString port))
  else
    update (set_apiBase ("http://" ++ host ++ ":" ++ Js.numToString port
                         ++ "/api/v" ++ APIVersion)) ;;;
    update (set_domain domainName) ;;;
    n <- newNonce ;;
    update (set_nonce n) ;;;
    timestamp <- nowISO ;;
    let signagureAlgorithm := signatureMethodEd25519 in
    c <- this ;;
    let signatureContent := handshakeContent c timestamp in
    signature <- base64Signature signatureContent ;;
    let requestData := JObj [ ("id", JStr (accessID c)); ("nonce", JStr (nonce c)) ] in
    let headers :=
      Headers.append
        (Headers.append
           (Headers.append [] headerNameTimestamp timestamp)
           headerNameSignatureAlgorithm signagureAlgorithm)
        headerNameSignature signature in
    (* the call hands [requestData] over in the place of [headers] *)
    r <- rawRequest (JStr "post") "/sessions/" requestData JUndefined ;;
    storeSession r.

Definition connect (host : string) (port : Z) : M unit :=
  connectToDomain host port defaultDomainName.

(** [this.#doRequest(('put', url))]: the parenthesised comma expression
    evaluates to [url], the one argument of the call. *)
Definition activate : M JsVal :=
  url <- mapToAPI "/sessions/" ;;
  doRequest (JStr url) JUndefined.

(** [getStatus] stands inside the comment that opens before it and closes
    before [querySchemas]: the class has no such method. *)
Definition querySchemas (queryStart maxRecord : JsVal) : M JsVal :=
  url <- mapToDomain "schemas/" ;;
  let condition := JObj [ ("offset", queryStart); ("limit", maxRecord) ] in
  fetchResponseWithPayload (JStr "post") (JStr url) condition.

End TaiyiClient.

(* ================================================================== *)
(** * A sample environment *)
(* ================================================================== *)

Module Sample.

(** Single quotes stand for double quotes in the JSON texts below. *)
Definition js (s : string) : string :=
  Text.mapStr (fun a => if Ascii.eqb a "'" then JSON.dquote else a) s.

Definition sessionData : string :=
  js "{'session':'abc','timeout':30,'address':'10.0.0.2'}".

(** A backend that answers every request with the success envelope of a
    handshake. *)
Definition okResponse : Response :=
  {| resp_ok := true; resp_status := 200; resp_statusText := "OK";
     resp_body := js "{'error_code':0,'message':'','data':'...'}" |}.

Definition notFound : Response :=
  {| resp_ok := false; resp_status := 404; resp_statusText := "Not Found";
     resp_body := "" |}.

Definition rejected : Response :=
  {| resp_ok := true; resp_status := 200; resp_statusText := "OK";
     resp_body := js "{'error_code':7,'message':'denied','data':''}" |}.

Definition decode (text : string) : option JsVal :=
  if String.eqb text (resp_body okResponse) then
    Some (JObj [("error_code", JNum 0); ("message", JStr ""); ("data", JStr sessionData)])
  else if String.eqb text (resp_body rejected) then
    Some (JObj [("error_code", JNum 7); ("message", JStr "denied"); ("data", JStr "")])
  else if String.eqb text sessionData then
    Some (JObj [("session", JStr "abc"); ("timeout", JNum 30); ("address", JStr "10.0.0.2")])
  else None.

Definition platform (answer : Response) : Platform :=
  {| toISOString := fun n => "2024-05-01T10:00:0" ++ Js.numToString (Z.of_nat n) ++ ".000Z";
     Strings_random := fun n len =>
       string_of_list_ascii (repeat (ascii_of_nat (97 + n)) len);
     ed25519_sign := fun content key => Some ("ed25519:" ++ content);
     JSON_parse := decode;
     transport := fun _ _ => Responded answer |}.

Definition std : Platform := platform okResponse.

Definition fresh : Client := NewClient "alice" [1; 2; 3].

(** The client after [connectToDomain("localhost", 8080, "system")]. *)
Definition attempted : Client * World :=
  let '(_, c, w) := connectToDomain std "localhost" 8080 "system" fresh emptyWorld in
  (c, w).

End Sample.

(* ================================================================== *)
(** * Reading a run *)
(* ================================================================== *)

Definition resultOf {A} (run : Outcome A * Client * World) : Outcome A := fst (fst run).
Definition clientOf {A} (run : Outcome A * Client * World) : Client := snd (fst run).
Definition worldOf {A} (run : Outcome A * Client * World) : World := snd run.

(** A property of a plain object, [undefined] when absent. *)
Definition field (k : string) (v : JsVal) : JsVal :=
  match v with
  | JObj fs => Js.lookup k fs
  | _ => JUndefined
  end.

Definition hasKey (k : string) (v : JsVal) : bool :=
  match v with
  | JObj fs => Js.hasField k fs
  | _ => false
  end.

Definition keysOf (v : JsVal) : list string :=
  match v with
  | JObj fs => map fst fs
  | _ => []
  end.

(** The world after one more [new Date()], one more signature, one more
    request. *)
Definition tick (w : World) : World :=
  {| dates := S (dates w); draws := draws w; sent := sent w; signed := signed w |}.
Definition drew (w : World) : World :=
  {| dates := dates w; draws := S (draws w); sent := sent w; signed := signed w |}.
Definition withSigned (obj : JsVal) (w : World) : World :=
  {| dates := dates w; draws := draws w; sent := sent w;
     signed := (signed w ++ [obj])%list |}.
Definition withSent (r : Request) (w : World) : World :=
  {| dates := dates w; draws := draws w; sent := (sent w ++ [r])%list;
     signed := signed w |}.

(** The object [#signatureRequest] signs, as a function of what it reads. *)
Definition authContent (c : Client) (method : JsVal) (pathname timestamp : string)
  (payload : JsVal) : JsVal :=
  JObj [ ("id", sessionID c);
         ("method", method);
         ("url", JStr pathname);
         ("body", JStr (if isBodyMethod method
                        then Runtime.sha256Base64
                               (if Js.truthy payload then JSON.stringifyStr payload else "")
                        else ""));
         ("access", JStr (accessID c));
         ("timestamp", JStr timestamp);
         ("nonce", JStr (nonce c));
         ("signature_algorithm", JStr signatureMethodEd25519) ].

(** The [options] of [#signatureRequest]. *)
Definition authOptions (method payload : JsVal) : RequestInit :=
  if Js.truthy payload then
    {| init_method := method;
       init_headers := Some [("headerContentType", contentTypeJSON)];
       init_body := Some (JSON.stringifyStr payload) |}
  else {| init_method := method; init_headers := None; init_body := None |}.

(** The four headers appended after signing. *)
Definition withProof (c : Client) (timestamp signature : string) (r : Request) : Request :=
  Fetch.appendHeader
    (Fetch.appendHeader
       (Fetch.appendHeader
          (Fetch.appendHeader r headerNameSession (Js.toString (sessionID c)))
          headerNameTimestamp timestamp)
       headerNameSignatureAlgorithm signatureMethodEd25519)
    headerNameSignature signature.

(** The base URL that [connectToDomain] stores. *)
Definition baseURL (host : string) (port : Z) : string :=
  "http://" ++ (if String.eqb "" host then defaultDomainHost else host)
  ++ ":" ++ Js.numToString port ++ "/api/v" ++ APIVersion.

(** [connectToDomain] has three ways out: a validation error with nothing
    touched, a signing failure, and the [TypeError] of [#rawRequest]; the
    last two come after [apiBase], [domain] and [nonce] were assigned. *)
Definition validInput (port : Z) (domainName : string) : bool :=
  negb (String.eqb "" domainName) && negb (Z.leb port 0 || Z.gtb port 0xFFFF).

(** The client once [connectToDomain] has stored its three fields. *)
Definition attempt (P : Platform) (host : string) (port : Z) (domainName : string)
  (c : Client) (w : World) : Client :=
  set_nonce (Strings_random P (draws w) 16)
    (set_domain domainName (set_apiBase (baseURL host port) c)).

(** The calls a caller can make once a connection was attempted. *)
Inductive Call : Type :=
| CallActivate
| CallQuerySchemas (queryStart maxRecord : JsVal).

Definition call (P : Platform) (k : Call) : M JsVal :=
  match k with
  | CallActivate => activate P
  | CallQuerySchemas queryStart maxRecord => querySchemas P queryStart maxRecord
  end.

(** A sequence of calls, each awaited, failures caught by the caller. *)
Fixpoint calls (P : Platform) (ks : list Call) (c : Client) (w : World)
  : Client * World :=
  match ks with
  | [] => (c, w)
  | k :: ks' => let '(_, c', w') := call P k c w in calls P ks' c' w'
  end.

(** The handshake shape: the four properties and no other, so neither [id]
    nor [sessionID]; the nonce is the stored one. *)
Definition handshakeShape (c : Client) (obj : JsVal) : Prop :=
  keysOf obj = ["access"; "timestamp"; "nonce"; "signature_algorithm"]
  /\ hasKey "id" obj = false /\ hasKey "sessionID" obj = false
  /\ field "nonce" obj = JStr (nonce c).

(** The authenticated shape: the stored session id and the stored nonce. *)
Definition carriesSession (c : Client) (obj : JsVal) : Prop :=
  field "id" obj = sessionID c /\ field "nonce" obj = JStr (nonce c).

(* ================================================================== *)
(** * Sample runs *)
(* ================================================================== *)

Module Runs.
Import Sample.

Definition sessionsURL : string := "http://localhost:8080/api/v1/sessions/".

(** [#signatureRequest('put', url, null)], the call of [#doRequest]. *)
Definition putNoPayload : Outcome Request * Client * World :=
  signatureRequest std (JStr "put") (JStr sessionsURL) JNull
    (fst attempted) (snd attempted).

Definition condition : JsVal := JObj [("offset", JNum 0); ("limit", JNum 20)].

Definition postCondition : Outcome Request * Client * World :=
  signatureRequest std (JStr "post") (JStr sessionsURL) condition
    (fst attempted) (snd attempted).

(** [connectToDomain("localhost", 8080, "system")] on a new client. *)
Definition connectRun : Outcome unit * Client * World :=
  connectToDomain std "localhost" 8080 "system" fresh emptyWorld.

(** [connect("", 8080)] on a new client. *)
Definition connectDefault : Outcome unit * Client * World :=
  connect std "" 8080 fresh emptyWorld.

(** [connectToDomain("10.0.0.5", 9000, "chain")] on a new client. *)
Definition connectChain : Outcome unit * Client * World :=
  connectToDomain std "10.0.0.5" 9000 "chain" fresh emptyWorld.

(** [activate()] and [querySchemas(0, 20)] after [connectRun]. *)
Definition activateRun : Outcome JsVal * Client * World :=
  activate std (fst attempted) (snd attempted).

Definition queryRun : Outcome JsVal * Client * World :=
  querySchemas std (JNum 0) (JNum 20) (fst attempted) (snd attempted).

(** [#signatureRequest('post', url, 0)]: a payload that is not null and
    not truthy. *)
Definition postZero : Outcome Request * Client * World :=
  signatureRequest std (JStr "post") (JStr sessionsURL) (JNum 0)
    (fst attempted) (snd attempted).

(** A request as [#signatureRequest] would hand to [#parseResponse]. *)
Definition statusRequest : Request :=
  {| req_url := "http://localhost:8080/api/v1/domains/system/status";
     req_method := "GET"; req_headers := []; req_body := None |}.

End Runs.

(* ================================================================== *)
(** * Building a client from access data *)
(* ================================================================== *)

Module Libauth.

(** The two functions imported from [@bitauth/libauth].  [isHex]: the
    length is even and every character is a hexadecimal digit.  [hexToBin],
    for use on valid hexadecimal: one byte per pair of digits. *)
Definition isHexChar (a : ascii) : bool :=
  Js.isDigit a || Text.memStr a "abcdefABCDEF".

Definition isHex (maybeHex : string) : bool :=
  Nat.even (String.length maybeHex) && Text.allStr isHexChar maybeHex.

Definition hexValue (a : ascii) : Z :=
  let n := Z.of_nat (Text.code a) in
  if Js.isDigit a then n - 48
  else if Text.isLower a then n - 87
  else n - 55.

Fixpoint hexToBin (validHex : string) : list Z :=
  match validHex with
  | String a (String b r) => (16 * hexValue a + hexValue b) :: hexToBin r
  | String a EmptyString => [hexValue a]
  | EmptyString => []
  end.

End Libauth.

Definition keyEncodeMethodEd25519Hex : string := "ed25519-hex".
Definition defaultKeyEncodeMethod : string := keyEncodeMethodEd25519Hex.

(** The [data] argument of [NewClientFromAccess], its three properties
    taken as strings. *)
Record AccessData : Type := {
  id : string;
  encode_method : string;
  private_key : string
}.

Definition NewClientFromAccess (data : AccessData) : Outcome Client :=
  if String.eqb defaultKeyEncodeMethod (encode_method data) then
    if negb (Libauth.isHex (private_key data)) then
      Thrown (Error "invalid key format")
    else
      let decoded := Libauth.hexToBin (private_key data) in
      Returned (NewClient (id data) decoded)
  else
    Thrown (Error ("unsupport encode method: " ++ encode_method data)).

(** A byte list whose members are bytes. *)
Definition bytesOK (bs : list Z) : Prop := Forall (fun b => 0 <= b < 256) bs.

(** A host name made of ASCII letters; the empty one stands for the
    default host. *)
Definition lettersOnly (host : string) : bool := Text.allStr Text.isAlpha host.

(** The texts on which the model of the runtime's URL handling is exact:
    a host in lower-case letters, a name or a path made of letters, digits,
    [-] and [_] (and [/] in a path), a number that is a safe integer. *)
Definition lowerLetters (host : string) : bool := Text.allStr Text.isLower host.

Definition isNameChar (a : ascii) : bool :=
  Text.isAlpha a || Js.isDigit a || Text.memStr a "-_".

Definition plainName (s : string) : bool := Text.allStr isNameChar s.

Definition isPlainChar (a : ascii) : bool :=
  Text.isAlpha a || Js.isDigit a || Text.memStr a "/-_".

Definition plainPath (s : string) : bool := Text.allStr isPlainChar s.

Definition safeInteger (n : Z) : bool :=
  Z.ltb (- 9007199254740992) n && Z.ltb n 9007199254740992.





(** More environments: a signer that refuses every message, a network that
    is down. *)
Module Env.

Definition unsigned : Platform :=
  {| toISOString := toISOString Sample.std;
     Strings_random := Strings_random Sample.std;
     ed25519_sign := fun _ _ => None;
     JSON_parse := Sample.decode;
     transport := transport Sample.std |}.

Definition offline : Platform :=
  {| toISOString := toISOString Sample.std;
     Strings_random := Strings_random Sample.std;
     ed25519_sign := ed25519_sign Sample.std;
     JSON_parse := Sample.decode;
     transport := fun _ _ => NetworkFailure "Failed to fetch" |}.

Definition access : AccessData :=
  {| id := "alice"; encode_method := "ed25519-hex"; private_key := "00ff10Ab" |}.

(** Requests built while the network is down, and one for a page that the
    backend does not have. *)
Definition putOffline : Outcome Request * Client * World :=
  signatureRequest offline (JStr "put") (JStr Runs.sessionsURL) Runs.condition
    (fst Sample.attempted) (snd Sample.attempted).

Definition postOffline : Outcome Request * Client * World :=
  signatureRequest offline (JStr "post") (JStr Runs.sessionsURL) Runs.condition
    (fst Sample.attempted) (snd Sample.attempted).


(** [connectToDomain("", 9000, "chain")] on a new client. *)
Definition connectLocal : Outcome unit * Client * World :=
  connectToDomain Sample.std "" 9000 "chain" Sample.fresh emptyWorld.

End Env.

(** The request of a run that built one. *)
Definition requestOf (run : Outcome Request * Client * World) : Request :=
  match resultOf run with
  | Returned r => r
  | Thrown _ => Runs.statusRequest
  end.

(* ================================================================== *)
(** * The primitives against their published values *)
(* ================================================================== *)

Example round_constants :
  List.length SHA256.K = 64%nat
  /\ hd 0 SHA256.K = 0x428a2f98 /\ last SHA256.K 0 = 0xc67178f2
  /\ hd 0 SHA256.H0 = 0x6a09e667 /\ last SHA256.H0 0 = 0x5be0cd19.
Proof. repeat split. Qed.

(** The published test vectors. *)
Example sha256_empty :
  hex_of_bytes (SHA256.digest (Bytes.of_string ""))
  = "e3b0c44298fc1c149afbf4c8996fb92427ae41e4649b934ca495991b7852b855".
Proof. vm_compute. reflexivity. Qed.

Example sha256_abc :
  hex_of_bytes (SHA256.digest (Bytes.of_string "abc"))
  = "ba7816bf8f01cfea414140de5dae2223b00361a396177a9cb410ff61f20015ad".
Proof. vm_compute. reflexivity. Qed.

Example sha256_two_blocks :
  hex_of_bytes (SHA256.digest (Bytes.of_string
    "abcdbcdecdefdefgefghfghighijhijkijkljklmklmnlmnomnopnopq"))
  = "248d6a61d20638b8e5c026930c3e6039a33ce45964ff2167f6ecedd419db06c1".
Proof. vm_compute. reflexivity. Qed.

Example base64_foobar : Base64.encode (Bytes.of_string "foobar") = "Zm9vYmFy".
Proof. reflexivity. Qed.

Example base64_padding :
  Base64.encode (Bytes.of_string "Ma") = "TWE="
  /\ Base64.encode (Bytes.of_string "M") = "TQ==".
Proof. split; reflexivity. Qed.

(* ================================================================== *)
(** * What each method computes *)
(* ================================================================== *)

Section Equations.

Variable P : Platform.

Lemma rawRequest_throws method path headers payload c w :
  exists e, rawRequest P method path headers payload c w = (Thrown e, c, w).
Proof.
  unfold rawRequest, mapToAPI, bind, this, ret, lift.
  destruct (Runtime.callAppend headers headerContentType contentTypeJSON);
    simpl; eauto.
Qed.

Lemma rawRequest_plain_object method path fields payload c w :
  rawRequest P method path (JObj fields) payload c w
  = (Thrown (TypeError "headers.append is not a function"), c, w).
Proof. reflexivity. Qed.

(** Even with a [Headers] instance in its place, the reference to the
    undeclared [nil] stops the call. *)
Lemma rawRequest_with_headers method path h payload c w :
  rawRequest P method path (JHeaders h) payload c w
  = (Thrown (ReferenceError "nil is not defined"), c, w).
Proof. reflexivity. Qed.

Lemma parseResponse_eq request c w :
  parseResponse P request c w
  = (Thrown (TypeError match transport P (sent w) request with
                       | NetworkFailure reason => reason
                       | Responded _ => "resp.ok is not a function"
                       end),
     c, withSent request w).
Proof.
  unfold parseResponse, bind, fetch, withSent.
  destruct (transport P (sent w) request); reflexivity.
Qed.

Lemma getResult_eq request c w :
  getResult P request c w
  = (Thrown (TypeError match transport P (sent w) request with
                       | NetworkFailure reason => reason
                       | Responded _ => "resp.ok is not a function"
                       end),
     c, withSent request w).
Proof. unfold getResult, bind. rewrite parseResponse_eq. reflexivity. Qed.

(** The unawaited call: whatever the backend answers, the caller sees
    [undefined]. *)
Lemma validateResult_eq request c w :
  validateResult P request c w = (Returned JUndefined, c, withSent request w).
Proof.
  unfold validateResult, bind, detached. rewrite parseResponse_eq. reflexivity.
Qed.

Lemma base64Signature_eq obj c w :
  base64Signature P obj c w
  = match ed25519_sign P (JSON.stringifyStr obj) (privateKey c) with
    | None => (Thrown (PrimitiveFailure "ed25519.sign"), c, w)
    | Some sg => (Returned (Runtime.btoa sg), c, withSigned obj w)
    end.
Proof.
  unfold base64Signature, bind, this.
  destruct (ed25519_sign P (JSON.stringifyStr obj) (privateKey c)); reflexivity.
Qed.

Lemma signatureRequest_eq method url payload c w :
  signatureRequest P method url payload c w
  = match Runtime.newURL url with
    | Thrown e => (Thrown e, c, w)
    | Returned pathname =>
        let timestamp := toISOString P (dates w) in
        match Fetch.newRequest (Js.toString url) (authOptions method payload) with
        | Thrown e => (Thrown e, c, tick w)
        | Returned request =>
            let content := authContent c method pathname timestamp payload in
            match ed25519_sign P (JSON.stringifyStr content) (privateKey c) with
            | None => (Thrown (PrimitiveFailure "ed25519.sign"), c, tick w)
            | Some sg =>
                (Returned (withProof c timestamp (Runtime.btoa sg) request), c,
                 withSigned content (tick w))
            end
        end
    end.
Proof.
  unfold signatureRequest, bind, lift, nowISO, this.
  destruct (Runtime.newURL url) as [pathname|e]; [|reflexivity].
  fold (tick w). cbv zeta.
  replace (if Js.truthy payload
           then {| init_method := method;
                   init_headers :=
                     Some (Headers.ofObject [("headerContentType", JStr contentTypeJSON)]);
                   init_body := Some (if Js.truthy payload
                                      then JSON.stringifyStr payload else "") |}
           else {| init_method := method; init_headers := None; init_body := None |})
    with (authOptions method payload)
    by (unfold authOptions; destruct (Js.truthy payload); reflexivity).
  destruct (Fetch.newRequest (Js.toString url) (authOptions method payload))
    as [request|e]; [|reflexivity].
  rewrite base64Signature_eq.
  replace (JObj (if isBodyMethod method then _ else _))
    with (authContent c method pathname (toISOString P (dates w)) payload)
    by (unfold authContent; destruct (isBodyMethod method); reflexivity).
  destruct (ed25519_sign P _ (privateKey (c))); reflexivity.
Qed.

Lemma connectToDomain_eq host port domainName c w :
  connectToDomain P host port domainName c w
  = if String.eqb "" domainName then (Thrown (Error "domain name omit"), c, w)
    else if Z.leb port 0 || Z.gtb port 0xFFFF then
      (Thrown (Error ("invalid port " ++ Js.numToString port)), c, w)
    else
      let c1 := attempt P host port domainName c w in
      let content := handshakeContent c1 (toISOString P (dates w)) in
      match ed25519_sign P (JSON.stringifyStr content) (privateKey c) with
      | None => (Thrown (PrimitiveFailure "ed25519.sign"), c1, tick (drew w))
      | Some _ =>
          (Thrown (TypeError "headers.append is not a function"), c1,
           withSigned content (tick (drew w)))
      end.
Proof.
  unfold connectToDomain.
  destruct (String.eqb "" domainName); [reflexivity|].
  destruct (Z.leb port 0 || Z.gtb port 0xFFFF); [reflexivity|].
  unfold bind at 1. unfold update at 1.
  unfold bind at 1. unfold update at 1.
  unfold bind at 1. unfold newNonce at 1.
  unfold bind at 1. unfold update at 1.
  unfold bind at 1. unfold nowISO at 1.
  unfold bind at 1. unfold this at 1.
  unfold bind at 1. rewrite base64Signature_eq.
  cbv zeta. fold (baseURL host port).
  change (set_nonce _ (set_domain domainName (set_apiBase (baseURL host port) c)))
    with (attempt P host port domainName c w).
  change (privateKey (attempt P host port domainName c w)) with (privateKey c).
  destruct (ed25519_sign P _ (privateKey c)); reflexivity.
Qed.

Lemma activate_eq c w :
  activate P c w = (Thrown (TypeError "Invalid URL"), c, w).
Proof. reflexivity. Qed.

Lemma querySchemas_eq queryStart maxRecord c w :
  querySchemas P queryStart maxRecord c w
  = let url := apiBase c ++ "/domains/" ++ domain c ++ "schemas/" in
    let condition := JObj [("offset", queryStart); ("limit", maxRecord)] in
    match signatureRequest P (JStr "post") (JStr url) condition c w with
    | (Returned request, c', w') =>
        (Thrown (TypeError match transport P (sent w') request with
                           | NetworkFailure reason => reason
                           | Responded _ => "resp.ok is not a function"
                           end),
         c', withSent request w')
    | (Thrown e, c', w') => (Thrown e, c', w')
    end.
Proof.
  unfold querySchemas, fetchResponseWithPayload, mapToDomain.
  unfold bind at 1. unfold this at 1. unfold bind at 1. unfold ret at 1.
  unfold bind at 1. cbv zeta.
  destruct (signatureRequest P _ _ _ c w) as [[[request|e] c'] w'];
    [apply getResult_eq | reflexivity].
Qed.

End Equations.

(* ================================================================== *)
(** * The signed body field *)
(* ================================================================== *)

Section Digest.

Lemma compress_length hs block :
  List.length hs = 8%nat -> List.length (SHA256.compress hs block) = 8%nat.
Proof.
  intros H.
  do 8 (destruct hs as [|? hs]; [discriminate H|]).
  destruct hs; [|discriminate H].
  unfold SHA256.compress.
  destruct (fold_left SHA256.round _ _) as [[[[[[[? ?] ?] ?] ?] ?] ?] ?].
  reflexivity.
Qed.

Lemma blocks_length fuel : forall ws hs,
  List.length hs = 8%nat -> List.length (SHA256.blocks fuel ws hs) = 8%nat.
Proof.
  induction fuel as [|fuel IH]; intros ws hs H; simpl.
  - exact H.
  - destruct ws; [exact H|]. apply IH, compress_length, H.
Qed.

(** A SHA-256 digest has 32 bytes. *)
Lemma digest_length msg : List.length (SHA256.digest msg) = 32%nat.
Proof.
  unfold SHA256.digest, SHA256.digest_words.
  pose proof (blocks_length (List.length (SHA256.words (SHA256.pad msg)))
                (SHA256.words (SHA256.pad msg)) SHA256.H0 eq_refl) as H.
  destruct (SHA256.blocks _ _ _) as [|a l]; [discriminate H|].
  do 7 (destruct l as [|? l]; [discriminate H|]).
  destruct l; [reflexivity|discriminate H].
Qed.

Lemma encode_nonempty bs : bs <> [] -> Base64.encode bs <> "".
Proof.
  destruct bs as [|a [|b [|c r]]]; intros H; [contradiction| | |]; discriminate.
Qed.

(** The digest field is never the empty-string sentinel. *)
Lemma sha256Base64_not_sentinel s : Runtime.sha256Base64 s <> "".
Proof.
  unfold Runtime.sha256Base64. apply encode_nonempty.
  intros H. pose proof (digest_length (Bytes.of_string s)) as L.
  rewrite H in L. discriminate L.
Qed.

Lemma isBodyMethod_iff method :
  isBodyMethod method = true
  <-> In method [JStr "post"; JStr "put"; JStr "delete"; JStr "patch"].
Proof.
  unfold isBodyMethod, Js.strictEqStr. split.
  - destruct method as [| | | |s| |]; try discriminate.
    rewrite !orb_true_iff, !String.eqb_eq. simpl.
    intuition (subst; auto).
  - simpl. intros [H|[H|[H|[H|[]]]]]; subst; reflexivity.
Qed.

(** A truthy payload always serialises to a string. *)
Lemma stringify_truthy payload :
  Js.truthy payload = true ->
  JSON.stringify payload = Some (JSON.stringifyStr payload).
Proof.
  unfold JSON.stringifyStr.
  destruct payload as [| |[]|n|s|fs|h]; simpl; try discriminate; reflexivity.
Qed.

End Digest.

(** C1, as the code has it.  When [#signatureRequest] builds a request, the
    object it signs carries a "body" field that depends on the method alone
    for the choice between digest and sentinel: for post, put, delete and
    patch it is the base64 SHA-256 digest of the body content, which is the
    JSON text of the payload when the payload is truthy and the empty string
    otherwise; for every other method it is the empty-string sentinel.  No
    digest equals the sentinel. *)
Theorem C1_signed_body P method url payload c w request c' w' :
  signatureRequest P method url payload c w = (Returned request, c', w') ->
  exists content,
    signed w' = (signed w ++ [content])%list
    /\ (In method [JStr "post"; JStr "put"; JStr "delete"; JStr "patch"] ->
        field "body" content
        = JStr (Runtime.sha256Base64
                  (if Js.truthy payload then JSON.stringifyStr payload else "")))
    /\ (~ In method [JStr "post"; JStr "put"; JStr "delete"; JStr "patch"] ->
        field "body" content = JStr "")
    /\ (Js.truthy payload = true ->
        JSON.stringify payload = Some (JSON.stringifyStr payload))
    /\ (forall s, Runtime.sha256Base64 s <> "").
Proof.
  rewrite signatureRequest_eq.
  destruct (Runtime.newURL url) as [pathname|e]; [|discriminate].
  cbv zeta.
  destruct (Fetch.newRequest _ _) as [rq|e]; [|discriminate].
  destruct (ed25519_sign P _ _) as [sg|]; [|discriminate].
  intros H. injection H as _ _ Hw. subst w'.
  exists (authContent c method pathname (toISOString P (dates w)) payload).
  split; [reflexivity|].
  split; [|split; [|split]].
  - intros Hin. apply isBodyMethod_iff in Hin. simpl. rewrite Hin. reflexivity.
  - intros Hnot. simpl. destruct (isBodyMethod method) eqn:E; [|reflexivity].
    apply isBodyMethod_iff in E. contradiction.
  - apply stringify_truthy.
  - apply sha256Base64_not_sentinel.
Qed.

Lemma C1_signed_body_witness :
  exists content,
    signed (worldOf Runs.postCondition)
    = (signed (snd Sample.attempted) ++ [content])%list
    /\ (In (JStr "post") [JStr "post"; JStr "put"; JStr "delete"; JStr "patch"] ->
        field "body" content
        = JStr (Runtime.sha256Base64
                  (if Js.truthy Runs.condition
                   then JSON.stringifyStr Runs.condition else "")))
    /\ (~ In (JStr "post") [JStr "post"; JStr "put"; JStr "delete"; JStr "patch"] ->
        field "body" content = JStr "")
    /\ (Js.truthy Runs.condition = true ->
        JSON.stringify Runs.condition = Some (JSON.stringifyStr Runs.condition))
    /\ (forall s, Runtime.sha256Base64 s <> "").
Proof.
  eapply (C1_signed_body Sample.std (JStr "post") (JStr Runs.sessionsURL)
            Runs.condition (fst Sample.attempted) (snd Sample.attempted)).
  vm_compute. reflexivity.
Defined.

(** C1 as stated fails, on both sides.  A put with a null payload is a
    request with no payload, yet the signed "body" field is the digest of
    the empty string, not the empty-string sentinel.  A post with the
    payload 0, which is not null, signs the digest of the empty string too,
    not the digest of its JSON text. *)
Lemma C1_null_payload_is_hashed :
  (exists request, resultOf Runs.putNoPayload = Returned request
                   /\ req_body request = None)
  /\ field "body" (last (signed (worldOf Runs.putNoPayload)) JUndefined)
     = JStr (Runtime.sha256Base64 "")
  /\ field "body" (last (signed (worldOf Runs.putNoPayload)) JUndefined)
     = JStr "47DEQpj8HBSa+/TImW+5JCeuQeRkm5NMpJWZG3hSuFU="
  /\ field "body" (last (signed (worldOf Runs.putNoPayload)) JUndefined) <> JStr ""
  /\ (exists request, resultOf Runs.postZero = Returned request)
  /\ JSON.stringify (JNum 0) = Some "0"
  /\ field "body" (last (signed (worldOf Runs.postZero)) JUndefined)
     = JStr (Runtime.sha256Base64 "")
  /\ field "body" (last (signed (worldOf Runs.postZero)) JUndefined)
     <> JStr (Runtime.sha256Base64 "0").
Proof.
  split; [eexists; split; vm_compute; reflexivity|].
  split; [vm_compute; reflexivity|].
  split; [vm_compute; reflexivity|].
  split; [vm_compute; discriminate|].
  split; [eexists; vm_compute; reflexivity|].
  split; [reflexivity|].
  split; [vm_compute; reflexivity|].
  vm_compute. discriminate.
Qed.

(* ================================================================== *)
(** * The handshake *)
(* ================================================================== *)

Section Handshake.

Variable P : Platform.

Lemma validInput_iff port domainName :
  validInput port domainName = true <-> (1 <= port <= 65535 /\ domainName <> "").
Proof.
  unfold validInput.
  rewrite andb_true_iff, !negb_true_iff, orb_false_iff.
  rewrite Z.leb_gt, Z.gtb_ltb, Z.ltb_ge, String.eqb_neq.
  change 0xFFFF with 65535. split.
  - intros [H1 [H2 H3]]. split; [lia|]. intros E. apply H1. symmetry. exact E.
  - intros [H1 H2]. split; [|lia]. intros E. apply H2. symmetry. exact E.
Qed.

(** Invalid input: the call throws an [Error] and touches nothing. *)
Lemma connectToDomain_rejects host port domainName c w :
  validInput port domainName = false ->
  exists message,
    connectToDomain P host port domainName c w = (Thrown (Error message), c, w).
Proof.
  rewrite connectToDomain_eq. unfold validInput.
  destruct (String.eqb "" domainName); [eauto|].
  destruct (Z.leb port 0 || Z.gtb port 0xFFFF); [eauto|discriminate].
Qed.

(** Valid input: the three fields are stored, then the call throws. *)
Lemma connectToDomain_validated host port domainName c w :
  validInput port domainName = true ->
  exists e w',
    connectToDomain P host port domainName c w
    = (Thrown e, attempt P host port domainName c w, w')
    /\ sent w' = sent w.
Proof.
  rewrite connectToDomain_eq. unfold validInput.
  destruct (String.eqb "" domainName); [discriminate|].
  destruct (Z.leb port 0 || Z.gtb port 0xFFFF); [discriminate|].
  intros _. cbv zeta.
  destruct (ed25519_sign P _ _); eauto.
Qed.

Lemma connectToDomain_never_returns host port domainName c w :
  exists e, resultOf (connectToDomain P host port domainName c w) = Thrown e.
Proof.
  destruct (validInput port domainName) eqn:V.
  - destruct (connectToDomain_validated host port domainName c w V)
      as (e & w' & H & _).
    rewrite H. eexists. reflexivity.
  - destruct (connectToDomain_rejects host port domainName c w V) as (m & H).
    rewrite H. eexists. reflexivity.
Qed.

Lemma connectToDomain_sends_nothing host port domainName c w :
  sent (worldOf (connectToDomain P host port domainName c w)) = sent w.
Proof.
  destruct (validInput port domainName) eqn:V.
  - destruct (connectToDomain_validated host port domainName c w V)
      as (e & w' & H & S).
    rewrite H. exact S.
  - destruct (connectToDomain_rejects host port domainName c w V) as (m & H).
    rewrite H. reflexivity.
Qed.

(** What the last lines of [connectToDomain] do with a handshake result:
    they would store the three values and nothing else. *)
Lemma storeSession_object fields c w :
  storeSession (JObj fields) c w
  = (Returned tt,
     set_localIP (Js.lookup "address" fields)
       (set_timeout (Js.lookup "timeout" fields)
          (set_sessionID (Js.lookup "session" fields) c)),
     w).
Proof. reflexivity. Qed.

End Handshake.

(** The handshake result of the interface description, stored. *)
Example storeSession_example :
  clientOf (storeSession
              (JObj [("session", JStr "abc"); ("timeout", JNum 30);
                     ("address", JStr "10.0.0.2")])
              Sample.fresh emptyWorld)
  = {| accessID := "alice"; privateKey := [1; 2; 3]; apiBase := ""; domain := "";
       nonce := ""; sessionID := JStr "abc"; timeout := JNum 30;
       localIP := JStr "10.0.0.2" |}.
Proof. reflexivity. Qed.

(** The examples of invalid input: an empty domain name, a port out of
    range. *)
Example connect_empty_domain :
  connectToDomain Sample.std "" 8080 "" Sample.fresh emptyWorld
  = (Thrown (Error "domain name omit"), Sample.fresh, emptyWorld).
Proof. reflexivity. Qed.

Example connect_port_out_of_range :
  connectToDomain Sample.std "api.example.com" 70000 "system" Sample.fresh emptyWorld
  = (Thrown (Error "invalid port 70000"), Sample.fresh, emptyWorld).
Proof. reflexivity. Qed.

(** C2, on the code.  The claim has the handshake sent as a POST to
    "/sessions/" with the body {id, nonce} and three headers.  The call
    [this.#rawRequest('post', '/sessions/', requestData)] leaves the headers
    out, so [requestData] lands in the [headers] parameter and
    [headers.append] throws: no call of [connectToDomain] hands a request to
    [fetch].  Evaluated at connectToDomain("localhost", 8080, "system"). *)
Theorem C2_handshake_request_is_never_issued :
  (forall P host port domainName c w,
      sent (worldOf (connectToDomain P host port domainName c w)) = sent w)
  /\ resultOf Runs.connectRun
     = Thrown (TypeError "headers.append is not a function")
  /\ sent (worldOf Runs.connectRun) = [].
Proof.
  split; [intros; apply connectToDomain_sends_nothing|].
  split; vm_compute; reflexivity.
Qed.

(** C3, on the code.  The claim has connect succeed exactly on valid input.
    Valid input never succeeds: connect("", 8080) passes validation, the host
    defaults to localhost, and the call ends in the [TypeError] of
    [#rawRequest]; no input at all makes [connectToDomain] return.  Invalid
    input is refused as claimed, with an [Error] and nothing touched. *)
Theorem C3_valid_input_does_not_connect :
  validInput 8080 defaultDomainName = true
  /\ resultOf Runs.connectDefault
     = Thrown (TypeError "headers.append is not a function")
  /\ apiBase (clientOf Runs.connectDefault) = "http://localhost:8080/api/v1"
  /\ (forall P host port domainName c w,
         exists e, resultOf (connectToDomain P host port domainName c w) = Thrown e)
  /\ (forall P host port domainName c w,
         validInput port domainName = false ->
         exists message,
           connectToDomain P host port domainName c w
           = (Thrown (Error message), c, w)).
Proof.
  split; [reflexivity|].
  split; [vm_compute; reflexivity|].
  split; [vm_compute; reflexivity|].
  split; intros.
  - apply connectToDomain_never_returns.
  - apply connectToDomain_rejects. assumption.
Qed.

(** C4, as the code has it.  When [connectToDomain] fails after validation
    has passed, the error reaches the caller and [sessionID], [timeout] and
    [localIP] (and the credential) keep their values; [apiBase], [domain] and
    [nonce] were assigned before the request and hold this call's values. *)
Theorem C4_failed_connect_state P host port domainName c w e c' w' :
  domainName <> "" ->
  1 <= port <= 65535 ->
  connectToDomain P host port domainName c w = (Thrown e, c', w') ->
  sessionID c' = sessionID c /\ timeout c' = timeout c /\ localIP c' = localIP c
  /\ accessID c' = accessID c /\ privateKey c' = privateKey c
  /\ apiBase c' = baseURL host port
  /\ domain c' = domainName
  /\ nonce c' = Strings_random P (draws w) 16.
Proof.
  intros Hd Hp H.
  assert (V : validInput port domainName = true)
    by (apply validInput_iff; split; assumption).
  destruct (connectToDomain_validated P host port domainName c w V)
    as (e0 & w0 & H0 & _).
  rewrite H0 in H. injection H as _ Hc _. subst c'.
  repeat split.
Qed.

Lemma C4_failed_connect_state_witness :
  sessionID (clientOf Runs.connectChain) = sessionID Sample.fresh
  /\ timeout (clientOf Runs.connectChain) = timeout Sample.fresh
  /\ localIP (clientOf Runs.connectChain) = localIP Sample.fresh
  /\ accessID (clientOf Runs.connectChain) = accessID Sample.fresh
  /\ privateKey (clientOf Runs.connectChain) = privateKey Sample.fresh
  /\ apiBase (clientOf Runs.connectChain) = baseURL "10.0.0.5" 9000
  /\ domain (clientOf Runs.connectChain) = "chain"
  /\ nonce (clientOf Runs.connectChain) = Strings_random Sample.std (draws emptyWorld) 16.
Proof.
  eapply (C4_failed_connect_state Sample.std "10.0.0.5" 9000 "chain"
            Sample.fresh emptyWorld).
  - discriminate.
  - lia.
  - vm_compute. reflexivity.
Defined.

(** C4 as stated fails: connectToDomain("localhost", 8080, "system") on a
    new client passes validation and fails, and [apiBase], [domain] and
    [nonce] no longer hold their pre-call values. *)
Lemma C4_partial_state_is_committed :
  validInput 8080 "system" = true
  /\ (exists e, resultOf Runs.connectRun = Thrown e)
  /\ apiBase Sample.fresh = ""
  /\ apiBase (clientOf Runs.connectRun) = "http://localhost:8080/api/v1"
  /\ domain (clientOf Runs.connectRun) = "system"
  /\ nonce (clientOf Runs.connectRun) = "aaaaaaaaaaaaaaaa"
  /\ apiBase (clientOf Runs.connectRun) <> apiBase Sample.fresh
  /\ domain (clientOf Runs.connectRun) <> domain Sample.fresh
  /\ nonce (clientOf Runs.connectRun) <> nonce Sample.fresh.
Proof.
  split; [reflexivity|].
  split; [eexists; vm_compute; reflexivity|].
  repeat split; try (vm_compute; reflexivity); vm_compute; discriminate.
Qed.

(* ================================================================== *)
(** * The authenticated calls *)
(* ================================================================== *)

Section Calls.

Variable P : Platform.

Lemma newRequest_post url payload :
  Js.truthy payload = true ->
  Fetch.newRequest url (authOptions (JStr "post") payload)
  = Returned {| req_url := url; req_method := "POST";
                req_headers := [("headerContentType", contentTypeJSON);
                                ("Content-Type", Fetch.textPlain)];
                req_body := Some (JSON.stringifyStr payload) |}.
Proof. intros T. unfold authOptions. rewrite T. reflexivity. Qed.

(** [querySchemas] sends at most one request, and where it goes. *)
Lemma querySchemas_request queryStart maxRecord c w :
  sent (worldOf (querySchemas P queryStart maxRecord c w)) = sent w
  \/ exists request,
       sent (worldOf (querySchemas P queryStart maxRecord c w))
       = (sent w ++ [request])%list
       /\ req_url request = apiBase c ++ "/domains/" ++ domain c ++ "schemas/"
       /\ req_method request = "POST"
       /\ req_body request
          = Some (JSON.stringifyStr (JObj [("offset", queryStart); ("limit", maxRecord)])).
Proof.
  rewrite querySchemas_eq. cbv zeta. rewrite signatureRequest_eq.
  destruct (Runtime.newURL _) as [pathname|e]; [|left; reflexivity].
  cbv zeta. rewrite newRequest_post by reflexivity.
  destruct (ed25519_sign P _ _) as [sg|]; [|left; reflexivity].
  right. eexists. split; [reflexivity|]. repeat split.
Qed.

(** Called as written in [#doRequest], with a method and a URL, the call
    resolves to [undefined] whatever the backend answers. *)
Lemma doRequest_ignores_envelope method url c w request c' w' :
  signatureRequest P method url JNull c w = (Returned request, c', w') ->
  doRequest P method url c w = (Returned JUndefined, c', withSent request w').
Proof.
  intros H. unfold doRequest, bind. rewrite H. apply validateResult_eq.
Qed.

(** The four proof headers are on every request that [#signatureRequest]
    returns. *)
Lemma signatureRequest_proof_headers method url payload c w request c' w' :
  signatureRequest P method url payload c w = (Returned request, c', w') ->
  exists signature,
    In (headerNameSession, Js.toString (sessionID c)) (req_headers request)
    /\ In (headerNameTimestamp, toISOString P (dates w)) (req_headers request)
    /\ In (headerNameSignatureAlgorithm, signatureMethodEd25519) (req_headers request)
    /\ In (headerNameSignature, signature) (req_headers request).
Proof.
  rewrite signatureRequest_eq.
  destruct (Runtime.newURL url) as [pathname|e]; [|discriminate].
  cbv zeta.
  destruct (Fetch.newRequest _ _) as [rq|e]; [|discriminate].
  destruct (ed25519_sign P _ _) as [sg|]; [|discriminate].
  intros H. injection H as Hr _ _. subst request.
  exists (Runtime.btoa sg). unfold withProof, Fetch.appendHeader, Headers.append.
  simpl req_headers. rewrite !in_app_iff. simpl. intuition.
Qed.

Lemma relative_url_refused (rest : string) :
  Runtime.newURL (JStr ("/" ++ rest)) = Thrown (TypeError "Invalid URL").
Proof. reflexivity. Qed.

End Calls.

(** C5, on the code.  The claim has [activate] send an authenticated PUT to
    "/sessions/".  The call is written [this.#doRequest(('put', url))]: the
    comma expression passes [url] alone, as the method, and
    [new URL(undefined)] throws.  In every state [activate] fails before a
    request is built, and nothing is sent. *)
Theorem C5_activate_sends_nothing :
  (forall P c w, activate P c w = (Thrown (TypeError "Invalid URL"), c, w))
  /\ resultOf Runs.activateRun = Thrown (TypeError "Invalid URL")
  /\ sent (worldOf Runs.activateRun) = [].
Proof.
  split; [intros; apply activate_eq|]. split; reflexivity.
Qed.

(** C6, on the code.  The claim has [querySchemas] post to
    apiBase + "/domains/" + d + "/schemas/".  [#mapToDomain] is called with
    'schemas/', with no leading slash, so the request goes to
    apiBase + "/domains/" + d + "schemas/".  Evaluated at querySchemas(0, 20)
    with apiBase "http://localhost:8080/api/v1" and domain "system". *)
Theorem C6_schemas_url_lacks_a_slash :
  exists request,
    sent (worldOf Runs.queryRun) = [request]
    /\ req_method request = "POST"
    /\ req_body request = Some (Sample.js "{'offset':0,'limit':20}")
    /\ req_url request = "http://localhost:8080/api/v1/domains/systemschemas/"
    /\ req_url request
       <> apiBase (fst Sample.attempted) ++ "/domains/"
          ++ domain (fst Sample.attempted) ++ "/schemas/".
Proof.
  eexists. split; [vm_compute; reflexivity|].
  repeat split; try (vm_compute; reflexivity). vm_compute. discriminate.
Qed.

(** C7, on the code.  The claim has three outcomes: a transport error with
    the status, a protocol error with the message, the data field.
    [#parseResponse] tests [resp.ok()], a call of the boolean property [ok]:
    whenever the backend answers, with whatever status and envelope, the
    method throws that [TypeError].  Evaluated on a 404 response, on an
    envelope with error_code 7, on a success envelope, and through
    querySchemas(0, 20) answered by a 404. *)
Theorem C7_every_response_is_a_type_error :
  (forall P request c w,
      parseResponse P request c w
      = (Thrown (TypeError match transport P (sent w) request with
                           | NetworkFailure reason => reason
                           | Responded _ => "resp.ok is not a function"
                           end),
         c, withSent request w))
  /\ resultOf (parseResponse (Sample.platform Sample.notFound) Runs.statusRequest
                 Sample.fresh emptyWorld)
     = Thrown (TypeError "resp.ok is not a function")
  /\ resultOf (parseResponse (Sample.platform Sample.rejected) Runs.statusRequest
                 Sample.fresh emptyWorld)
     = Thrown (TypeError "resp.ok is not a function")
  /\ resultOf (getResult (Sample.platform Sample.okResponse) Runs.statusRequest
                 Sample.fresh emptyWorld)
     = Thrown (TypeError "resp.ok is not a function")
  /\ resultOf (querySchemas (Sample.platform Sample.notFound) (JNum 0) (JNum 20)
                 (fst Sample.attempted) (snd Sample.attempted))
     = Thrown (TypeError "resp.ok is not a function").
Proof.
  split; [intros; apply parseResponse_eq|].
  repeat split.
Qed.

(** C9, as the code has it.  The client keeps no connection state and has
    no usage error.  While [apiBase] is empty, [querySchemas] and [activate]
    fail in [new URL] on a URL with no scheme: a [TypeError], the state
    untouched, nothing sent. *)
Theorem C9_without_base_nothing_is_sent P queryStart maxRecord c w :
  apiBase c = "" ->
  querySchemas P queryStart maxRecord c w = (Thrown (TypeError "Invalid URL"), c, w)
  /\ activate P c w = (Thrown (TypeError "Invalid URL"), c, w).
Proof.
  intros H. split; [|apply activate_eq].
  rewrite querySchemas_eq. cbv zeta. rewrite signatureRequest_eq, H.
  change ("" ++ "/domains/" ++ domain c ++ "schemas/")
    with ("/" ++ ("domains/" ++ domain c ++ "schemas/")).
  rewrite relative_url_refused. reflexivity.
Qed.

Lemma C9_without_base_nothing_is_sent_witness :
  querySchemas Sample.std (JNum 0) (JNum 20) Sample.fresh emptyWorld
  = (Thrown (TypeError "Invalid URL"), Sample.fresh, emptyWorld)
  /\ activate Sample.std Sample.fresh emptyWorld
     = (Thrown (TypeError "Invalid URL"), Sample.fresh, emptyWorld).
Proof.
  apply (C9_without_base_nothing_is_sent Sample.std (JNum 0) (JNum 20)
           Sample.fresh emptyWorld).
  reflexivity.
Defined.

(** C9 as stated fails: no connect has succeeded, the stored session id is
    still empty, and querySchemas(0, 20) hands a request to [fetch]. *)
Lemma C9_request_sent_without_session :
  (exists e, resultOf Runs.connectRun = Thrown e)
  /\ sessionID (fst Sample.attempted) = JStr ""
  /\ sent (snd Sample.attempted) = []
  /\ (exists request, sent (worldOf Runs.queryRun) = [request]
                      /\ Headers.get (req_headers request) headerNameSession = Some "")
  /\ resultOf Runs.queryRun = Thrown (TypeError "resp.ok is not a function").
Proof.
  split; [eexists; vm_compute; reflexivity|].
  split; [vm_compute; reflexivity|].
  split; [vm_compute; reflexivity|].
  split; [eexists; split; vm_compute; reflexivity|].
  vm_compute. reflexivity.
Qed.

(** C10, on the code.  The four proof headers are attached as claimed
    ([signatureRequest_proof_headers]).  The content type is not: the headers
    are built from [{ headerContentType: contentTypeJSON }], whose key is the
    identifier's own name, so the header sent is "headerContentType" and the
    request's Content-Type is the default of a string body.  Evaluated on the
    request of querySchemas(0, 20). *)
Theorem C10_content_type_is_not_json :
  exists request,
    sent (worldOf Runs.queryRun) = [request]
    /\ req_body request = Some (Sample.js "{'offset':0,'limit':20}")
    /\ Headers.get (req_headers request) headerContentType
       = Some "text/plain;charset=UTF-8"
    /\ Headers.get (req_headers request) "headerContentType" = Some contentTypeJSON
    /\ ~ In (headerContentType, contentTypeJSON) (req_headers request)
    /\ Headers.get (req_headers request) headerNameSession = Some ""
    /\ Headers.get (req_headers request) headerNameTimestamp
       = Some "2024-05-01T10:00:01.000Z"
    /\ Headers.get (req_headers request) headerNameSignatureAlgorithm = Some "ed25519"
    /\ Headers.has (req_headers request) headerNameSignature = true.
Proof.
  eexists. split; [vm_compute; reflexivity|].
  split; [vm_compute; reflexivity|].
  split; [vm_compute; reflexivity|].
  split; [vm_compute; reflexivity|].
  split; [|repeat split; vm_compute; reflexivity].
  intros H. simpl in H. repeat (destruct H as [H|H]; [discriminate H|]). exact H.
Qed.

(* ================================================================== *)
(** * Session id and nonce in what is signed *)
(* ================================================================== *)

(** The step that signs nothing. *)
Ltac nothing_signed :=
  exists []; rewrite app_nil_r; repeat split; constructor.

Section SignedContent.

Variable P : Platform.

Lemma handshakeContent_shape c timestamp :
  handshakeShape c (handshakeContent c timestamp).
Proof. repeat split. Qed.

Lemma authContent_carries c method pathname timestamp payload :
  carriesSession c (authContent c method pathname timestamp payload).
Proof. split; reflexivity. Qed.

Lemma connectToDomain_signs host port domainName c w :
  exists new,
    signed (worldOf (connectToDomain P host port domainName c w))
    = (signed w ++ new)%list
    /\ Forall (handshakeShape (clientOf (connectToDomain P host port domainName c w))) new
    /\ nonce (clientOf (connectToDomain P host port domainName c w))
       = (if validInput port domainName
          then Strings_random P (draws w) 16 else nonce c)
    /\ draws (worldOf (connectToDomain P host port domainName c w))
       = (if validInput port domainName then S (draws w) else draws w).
Proof.
  rewrite connectToDomain_eq. unfold validInput.
  destruct (String.eqb "" domainName); [nothing_signed|].
  destruct (Z.leb port 0 || Z.gtb port 0xFFFF); [nothing_signed|].
  cbv zeta.
  destruct (ed25519_sign P _ _); [|nothing_signed].
  eexists [_]. split; [reflexivity|]. split; [|split; reflexivity].
  constructor; [apply handshakeContent_shape|constructor].
Qed.

Lemma signatureRequest_signs method url payload c w :
  clientOf (signatureRequest P method url payload c w) = c
  /\ draws (worldOf (signatureRequest P method url payload c w)) = draws w
  /\ exists new,
       signed (worldOf (signatureRequest P method url payload c w))
       = (signed w ++ new)%list
       /\ Forall (carriesSession c) new
       /\ List.length new
          = match resultOf (signatureRequest P method url payload c w) with
            | Returned _ => 1%nat
            | Thrown _ => 0%nat
            end.
Proof.
  rewrite signatureRequest_eq.
  destruct (Runtime.newURL url) as [pathname|e];
    [|repeat split; nothing_signed].
  cbv zeta.
  destruct (Fetch.newRequest _ _) as [rq|e]; [|repeat split; nothing_signed].
  destruct (ed25519_sign P _ _) as [sg|]; [|repeat split; nothing_signed].
  repeat split. eexists [_]. split; [reflexivity|]. split; [|reflexivity].
  constructor; [apply authContent_carries|constructor].
Qed.

Lemma call_signs k c w :
  clientOf (call P k c w) = c
  /\ draws (worldOf (call P k c w)) = draws w
  /\ exists new,
       signed (worldOf (call P k c w)) = (signed w ++ new)%list
       /\ Forall (carriesSession c) new.
Proof.
  destruct k as [|queryStart maxRecord]; simpl call.
  - rewrite activate_eq. repeat split. nothing_signed.
  - rewrite querySchemas_eq. cbv zeta.
    destruct (signatureRequest_signs (JStr "post")
                (JStr (apiBase c ++ "/domains/" ++ domain c ++ "schemas/"))
                (JObj [("offset", queryStart); ("limit", maxRecord)]) c w)
      as (Hc & Hd & new & Hs & Hf & _).
    destruct (signatureRequest P _ _ _ c w) as [[[request|e] c'] w'];
      unfold clientOf, worldOf in *; simpl in *; subst c';
      (repeat split; [assumption | exists new; split; assumption]).
Qed.

Lemma calls_sign ks : forall c w,
  fst (calls P ks c w) = c
  /\ draws (snd (calls P ks c w)) = draws w
  /\ exists new,
       signed (snd (calls P ks c w)) = (signed w ++ new)%list
       /\ Forall (carriesSession c) new.
Proof.
  induction ks as [|k ks IH]; intros c w; simpl calls.
  - repeat split. nothing_signed.
  - destruct (call_signs k c w) as (Hc & Hd & new1 & Hs1 & Hf1).
    destruct (call P k c w) as [[r c'] w'].
    unfold clientOf, worldOf in *; simpl in *; subst c'.
    destruct (IH c w') as (Hc2 & Hd2 & new2 & Hs2 & Hf2).
    split; [exact Hc2|]. split; [congruence|].
    exists (new1 ++ new2)%list. split.
    + rewrite Hs2, Hs1, app_assoc. reflexivity.
    + apply Forall_app. split; assumption.
Qed.

End SignedContent.

(** What holds of every signed object, in terms of the stored state.  The
    one signed by [connectToDomain] has no session id field and carries the
    nonce that this call drew, once, and stored; a call that fails leaves the
    stored session id as it was, and the last lines of the method store the
    session of the handshake result without touching the nonce.  The one
    signed by [#signatureRequest], hence by [activate] and [querySchemas] in
    any number and order, carries the stored session id and the stored nonce,
    and these calls neither draw a nonce nor change the stored state. *)
Lemma signed_contents_follow_the_stored_state P :
  (forall host port domainName c w,
      exists new,
        signed (worldOf (connectToDomain P host port domainName c w))
        = (signed w ++ new)%list
        /\ Forall (handshakeShape (clientOf (connectToDomain P host port domainName c w))) new
        /\ nonce (clientOf (connectToDomain P host port domainName c w))
           = (if validInput port domainName
              then Strings_random P (draws w) 16 else nonce c)
        /\ draws (worldOf (connectToDomain P host port domainName c w))
           = (if validInput port domainName then S (draws w) else draws w)
        /\ match resultOf (connectToDomain P host port domainName c w) with
           | Thrown _ =>
               sessionID (clientOf (connectToDomain P host port domainName c w))
               = sessionID c
           | Returned _ => True
           end)
  /\ (forall fields c w,
         resultOf (storeSession (JObj fields) c w) = Returned tt
         /\ sessionID (clientOf (storeSession (JObj fields) c w))
            = Js.lookup "session" fields
         /\ nonce (clientOf (storeSession (JObj fields) c w)) = nonce c)
  /\ (forall method url payload c w,
         clientOf (signatureRequest P method url payload c w) = c
         /\ draws (worldOf (signatureRequest P method url payload c w)) = draws w
         /\ exists new,
              signed (worldOf (signatureRequest P method url payload c w))
              = (signed w ++ new)%list
              /\ Forall (carriesSession c) new
              /\ List.length new
                 = match resultOf (signatureRequest P method url payload c w) with
                   | Returned _ => 1%nat
                   | Thrown _ => 0%nat
                   end)
  /\ (forall ks c w,
         fst (calls P ks c w) = c
         /\ draws (snd (calls P ks c w)) = draws w
         /\ exists new,
              signed (snd (calls P ks c w)) = (signed w ++ new)%list
              /\ Forall (carriesSession c) new).
Proof.
  split; [|split; [|split]].
  - intros host port domainName c w.
    destruct (connectToDomain_signs P host port domainName c w)
      as (new & Hs & Hf & Hn & Hd).
    exists new. repeat (split; [assumption|]).
    destruct (validInput port domainName) eqn:V.
    + destruct (connectToDomain_validated P host port domainName c w V)
        as (e & w' & H & _).
      rewrite H. reflexivity.
    + destruct (connectToDomain_rejects P host port domainName c w V) as (m & H).
      rewrite H. reflexivity.
  - intros fields c w. rewrite storeSession_object. repeat split.
  - intros. apply signatureRequest_signs.
  - intros. apply calls_sign.
Qed.

(** The two shapes in one run: the handshake of
    connectToDomain("localhost", 8080, "system"), then querySchemas(0, 20),
    signed with one nonce. *)
Example signed_log_of_a_session :
  signed (worldOf Runs.queryRun)
  = [ JObj [ ("access", JStr "alice");
             ("timestamp", JStr "2024-05-01T10:00:00.000Z");
             ("nonce", JStr "aaaaaaaaaaaaaaaa");
             ("signature_algorithm", JStr "ed25519") ];
      JObj [ ("id", JStr "");
             ("method", JStr "post");
             ("url", JStr "/api/v1/domains/systemschemas/");
             ("body", JStr "9D5kOfaDXTJ6weO4H5xSFNWRu36PAhG5C1aTtvlGUrI=");
             ("access", JStr "alice");
             ("timestamp", JStr "2024-05-01T10:00:01.000Z");
             ("nonce", JStr "aaaaaaaaaaaaaaaa");
             ("signature_algorithm", JStr "ed25519") ] ].
Proof. vm_compute. reflexivity. Qed.

Section SessionId.

Variable P : Platform.






End SessionId.


(* ================================================================== *)
(** * Access data and the private key *)
(* ================================================================== *)

Section AccessKey.

Lemma hexValue_range a :
  Libauth.isHexChar a = true -> 0 <= Libauth.hexValue a < 16.
Proof.
  destruct a as [[] [] [] [] [] [] [] []]; intros H; vm_compute in H;
    first [discriminate H | vm_compute; split; [discriminate | reflexivity]].
Qed.

(** Strings two characters at a time. *)
Lemma string_pair_ind (Q : string -> Prop) :
  Q "" -> (forall a, Q (String a "")) ->
  (forall a b r, Q r -> Q (String a (String b r))) ->
  forall s, Q s.
Proof.
  intros H0 H1 H2 s.
  assert (H : Q s /\ forall a, Q (String a s)).
  { induction s as [|b r [IH1 IH2]]; split; auto. }
  apply H.
Qed.

Lemma hexToBin_bytes : forall s,
  Libauth.isHex s = true ->
  bytesOK (Libauth.hexToBin s)
  /\ (2 * List.length (Libauth.hexToBin s) = String.length s)%nat.
Proof.
  unfold Libauth.isHex, bytesOK.
  induction s as [| a | a b r IH] using string_pair_ind; intros H.
  - split; [constructor|reflexivity].
  - discriminate H.
  - apply andb_true_iff in H. destruct H as [He Ha].
    simpl in Ha. apply andb_true_iff in Ha. destruct Ha as [Ha Hb].
    apply andb_true_iff in Hb. destruct Hb as [Hb Hr].
    change (Nat.even (String.length (String a (String b r))))
      with (Nat.even (String.length r)) in He.
    destruct IH as [IHb IHl]; [rewrite He, Hr; reflexivity|].
    pose proof (hexValue_range a Ha). pose proof (hexValue_range b Hb).
    change (Libauth.hexToBin (String a (String b r)))
      with ((16 * Libauth.hexValue a + Libauth.hexValue b) :: Libauth.hexToBin r).
    split.
    + constructor; [lia|exact IHb].
    + cbn [List.length String.length]. lia.
Qed.

Lemma hexdigit_inverse h :
  0 <= h < 16 ->
  Libauth.hexValue (hexdigit h) = h /\ Libauth.isHexChar (hexdigit h) = true.
Proof.
  intros H.
  assert (E : h = 0 \/ h = 1 \/ h = 2 \/ h = 3 \/ h = 4 \/ h = 5 \/ h = 6 \/ h = 7
              \/ h = 8 \/ h = 9 \/ h = 10 \/ h = 11 \/ h = 12 \/ h = 13
              \/ h = 14 \/ h = 15) by lia.
  repeat (destruct E as [E|E]; [subst h; split; reflexivity|]).
  subst h; split; reflexivity.
Qed.

Lemma nibbles b :
  0 <= b < 256 ->
  0 <= Z.shiftr b 4 < 16 /\ 0 <= Z.land b 15 < 16
  /\ 16 * Z.shiftr b 4 + Z.land b 15 = b.
Proof.
  intros H. rewrite Z.shiftr_div_pow2 by lia.
  change 15 with (Z.ones 4). rewrite Z.land_ones by lia.
  change (2 ^ 4) with 16.
  pose proof (Z.div_mod b 16 ltac:(lia)).
  pose proof (Z.mod_pos_bound b 16 ltac:(lia)).
  assert (0 <= b / 16 < 16)
    by (split; [apply Z.div_pos; lia | apply Z.div_lt_upper_bound; lia]).
  lia.
Qed.

Lemma hex_of_bytes_cons b bs :
  hex_of_bytes (b :: bs)
  = String (hexdigit (Z.shiftr b 4)) (String (hexdigit (Z.land b 15)) (hex_of_bytes bs)).
Proof. reflexivity. Qed.

Lemma hex_of_bytes_decodes bs :
  bytesOK bs ->
  Libauth.isHex (hex_of_bytes bs) = true
  /\ Libauth.hexToBin (hex_of_bytes bs) = bs.
Proof.
  unfold bytesOK. induction 1 as [|b bs Hb Hbs [IH1 IH2]].
  - split; reflexivity.
  - rewrite hex_of_bytes_cons.
    destruct (nibbles b Hb) as (N1 & N2 & N3).
    destruct (hexdigit_inverse _ N1) as [V1 C1].
    destruct (hexdigit_inverse _ N2) as [V2 C2].
    split.
    + unfold Libauth.isHex in *.
      apply andb_true_iff in IH1. destruct IH1 as [E A].
      change (Nat.even (String.length (String ?x (String ?y ?r))))
        with (Nat.even (String.length r)).
      simpl Text.allStr. rewrite E, C1, C2, A. reflexivity.
    + change (Libauth.hexToBin (String ?x (String ?y ?r)))
        with ((16 * Libauth.hexValue x + Libauth.hexValue y) :: Libauth.hexToBin r).
      rewrite V1, V2, N3, IH2. reflexivity.
Qed.

End AccessKey.

(** X1.  [NewClientFromAccess] looks at the encoding method first: any
    method other than "ed25519-hex" is refused with the method named in the
    message, whatever the key is. *)
Theorem X1_unsupported_method_is_refused data :
  encode_method data <> "ed25519-hex" ->
  NewClientFromAccess data
  = Thrown (Error ("unsupport encode method: " ++ encode_method data)).
Proof.
  intros H. unfold NewClientFromAccess.
  destruct (String.eqb defaultKeyEncodeMethod (encode_method data)) eqn:E;
    [|reflexivity].
  apply String.eqb_eq in E. exfalso. apply H. symmetry. exact E.
Qed.

Lemma X1_unsupported_method_is_refused_witness :
  NewClientFromAccess
    {| id := "alice"; encode_method := "rsa-pem"; private_key := "zz" |}
  = Thrown (Error "unsupport encode method: rsa-pem").
Proof.
  apply (X1_unsupported_method_is_refused
           {| id := "alice"; encode_method := "rsa-pem"; private_key := "zz" |}).
  discriminate.
Defined.

(** X2.  With the method "ed25519-hex", a key of odd length or with a
    character outside 0-9, a-f, A-F is refused as an invalid key format. *)
Theorem X2_malformed_key_is_refused data :
  encode_method data = "ed25519-hex" ->
  Nat.odd (String.length (private_key data)) = true
  \/ Text.allStr Libauth.isHexChar (private_key data) = false ->
  NewClientFromAccess data = Thrown (Error "invalid key format").
Proof.
  intros M K. unfold NewClientFromAccess. rewrite M. simpl String.eqb.
  unfold Libauth.isHex.
  destruct K as [K|K].
  - rewrite <- Nat.negb_even in K. apply negb_true_iff in K. rewrite K. reflexivity.
  - rewrite K, andb_false_r. reflexivity.
Qed.

Lemma X2_malformed_key_is_refused_witness :
  NewClientFromAccess
    {| id := "alice"; encode_method := "ed25519-hex"; private_key := "abc" |}
  = Thrown (Error "invalid key format").
Proof.
  apply (X2_malformed_key_is_refused
           {| id := "alice"; encode_method := "ed25519-hex"; private_key := "abc" |}).
  - reflexivity.
  - left. reflexivity.
Defined.

(** X3.  With the method "ed25519-hex" and an even number of hexadecimal
    digits, [NewClientFromAccess] returns a client that holds the given
    access id and no session: its key has one byte for every two digits, each
    in 0..255, and the six session fields are the constructor's. *)
Theorem X3_client_from_hex_key data :
  encode_method data = "ed25519-hex" ->
  Libauth.isHex (private_key data) = true ->
  exists client,
    NewClientFromAccess data = Returned client
    /\ accessID client = id data
    /\ privateKey client = Libauth.hexToBin (private_key data)
    /\ bytesOK (privateKey client)
    /\ (2 * List.length (privateKey client) = String.length (private_key data))%nat
    /\ apiBase client = "" /\ domain client = "" /\ nonce client = ""
    /\ sessionID client = JStr "" /\ timeout client = JNum 0
    /\ localIP client = JStr "".
Proof.
  intros M K. unfold NewClientFromAccess. rewrite M, K. simpl.
  eexists. split; [reflexivity|].
  destruct (hexToBin_bytes _ K) as [B L].
  simpl. repeat split; assumption.
Qed.

Lemma X3_client_from_hex_key_witness :
  exists client,
    NewClientFromAccess Env.access = Returned client
    /\ accessID client = id Env.access
    /\ privateKey client = Libauth.hexToBin (private_key Env.access)
    /\ bytesOK (privateKey client)
    /\ (2 * List.length (privateKey client)
        = String.length (private_key Env.access))%nat
    /\ apiBase client = "" /\ domain client = "" /\ nonce client = ""
    /\ sessionID client = JStr "" /\ timeout client = JNum 0
    /\ localIP client = JStr "".
Proof.
  apply (X3_client_from_hex_key Env.access); reflexivity.
Defined.

Example key_of_sample_access :
  NewClientFromAccess Env.access = Returned (NewClient "alice" [0; 255; 16; 171]).
Proof. reflexivity. Qed.

(** X4.  Hexadecimal text round trip: the lower-case hexadecimal text of
    any byte sequence is accepted, and the client gets those very bytes as
    its key. *)
Theorem X4_hex_key_round_trip name bs :
  bytesOK bs ->
  NewClientFromAccess
    {| id := name; encode_method := "ed25519-hex"; private_key := hex_of_bytes bs |}
  = Returned (NewClient name bs).
Proof.
  intros H. destruct (hex_of_bytes_decodes bs H) as [V D].
  unfold NewClientFromAccess. simpl private_key. simpl encode_method.
  simpl String.eqb. rewrite V, D. reflexivity.
Qed.

Lemma X4_hex_key_round_trip_witness :
  NewClientFromAccess
    {| id := "bob"; encode_method := "ed25519-hex";
       private_key := hex_of_bytes [7; 200; 0; 255] |}
  = Returned (NewClient "bob" [7; 200; 0; 255]).
Proof.
  apply (X4_hex_key_round_trip "bob" [7; 200; 0; 255]).
  repeat constructor; lia.
Defined.

(* ================================================================== *)
(** * Validation in connectToDomain and connect *)
(* ================================================================== *)

(** An empty domain name is reported before the port is looked at. *)
Lemma empty_domain_is_reported_first P host port c w :
  connectToDomain P host port "" c w = (Thrown (Error "domain name omit"), c, w).
Proof. reflexivity. Qed.

Lemma port_out_of_range P host port domainName c w :
  domainName <> "" ->
  port <= 0 \/ 65535 < port ->
  connectToDomain P host port domainName c w
  = (Thrown (Error ("invalid port " ++ Js.numToString port)), c, w).
Proof.
  intros D R. rewrite connectToDomain_eq.
  destruct (String.eqb "" domainName) eqn:E.
  - apply String.eqb_eq in E. exfalso. apply D. symmetry. exact E.
  - replace (Z.leb port 0 || Z.gtb port 0xFFFF) with true; [reflexivity|].
    symmetry. apply orb_true_iff. rewrite Z.leb_le, Z.gtb_ltb, Z.ltb_lt.
    change 0xFFFF with 65535. exact R.
Qed.

(** X5.  What [connectToDomain] says about invalid input.  An empty domain
    name is reported first, as "domain name omit", whatever the host and
    the port; with a domain name, a port outside 1..65535 is reported as
    "invalid port " followed by the port in decimal, for a port that is a
    safe integer (below 2^53 in absolute value).  Either way the client is
    untouched and the clock, the random source, the signer and the network
    have not been used. *)
Theorem X5_validation_errors P host port domainName c w :
  domainName = "" \/ port <= 0 \/ 65535 < port ->
  - 9007199254740992 < port < 9007199254740992 ->
  connectToDomain P host port domainName c w
  = (Thrown (Error (if String.eqb domainName "" then "domain name omit"
                    else "invalid port " ++ Js.numToString port)),
     c, w).
Proof.
  intros H _. destruct (String.eqb domainName "") eqn:E.
  - apply String.eqb_eq in E. subst domainName.
    apply empty_domain_is_reported_first.
  - apply String.eqb_neq in E. apply port_out_of_range; [exact E|].
    destruct H as [H|H]; [contradiction|exact H].
Qed.

Lemma X5_validation_errors_witness :
  connectToDomain Sample.std "api.example.com" (-1) "system" Sample.fresh emptyWorld
  = (Thrown (Error (if String.eqb "system" "" then "domain name omit"
                    else "invalid port " ++ Js.numToString (-1))),
     Sample.fresh, emptyWorld).
Proof.
  apply (X5_validation_errors Sample.std "api.example.com" (-1) "system"
           Sample.fresh emptyWorld).
  - right. left. lia.
  - lia.
Defined.

Example invalid_port_messages :
  resultOf (connectToDomain Sample.std "h" (-1) "system" Sample.fresh emptyWorld)
  = Thrown (Error "invalid port -1")
  /\ resultOf (connectToDomain Sample.std "h" 0 "system" Sample.fresh emptyWorld)
     = Thrown (Error "invalid port 0")
  /\ resultOf (connectToDomain Sample.std "h" 65536 "system" Sample.fresh emptyWorld)
     = Thrown (Error "invalid port 65536").
Proof. repeat split. Qed.

Example empty_domain_and_bad_port :
  connectToDomain Sample.std "" 70000 "" Sample.fresh emptyWorld
  = (Thrown (Error "domain name omit"), Sample.fresh, emptyWorld).
Proof. reflexivity. Qed.

(** X6.  [connect] is [connectToDomain] on the domain "system": with a port
    in 1..65535 the client ends up with that domain, the base URL of the
    host (localhost when the host is empty) and a newly drawn nonce, and the
    only validation error [connect] can report is the port's. *)
Theorem X6_connect_uses_the_default_domain P host port c w :
  1 <= port <= 65535 ->
  domain (clientOf (connect P host port c w)) = "system"
  /\ apiBase (clientOf (connect P host port c w))
     = "http://" ++ (if String.eqb "" host then "localhost" else host)
       ++ ":" ++ Js.numToString port ++ "/api/v1"
  /\ nonce (clientOf (connect P host port c w)) = Strings_random P (draws w) 16
  /\ resultOf (connect P host port c w) <> Thrown (Error "domain name omit")
  /\ resultOf (connect P host port c w)
     <> Thrown (Error ("invalid port " ++ Js.numToString port)).
Proof.
  intros R. unfold connect.
  assert (V : validInput port defaultDomainName = true)
    by (apply validInput_iff; split; [exact R|discriminate]).
  rewrite connectToDomain_eq.
  unfold validInput in V. simpl String.eqb in *. simpl negb in V.
  simpl andb in V. apply negb_true_iff in V. rewrite V. cbv zeta.
  destruct (ed25519_sign P _ _); repeat split; discriminate.
Qed.

Lemma X6_connect_uses_the_default_domain_witness :
  domain (clientOf (connect Sample.std "" 443 Sample.fresh emptyWorld)) = "system"
  /\ apiBase (clientOf (connect Sample.std "" 443 Sample.fresh emptyWorld))
     = "http://" ++ (if String.eqb "" "" then "localhost" else "")
       ++ ":" ++ Js.numToString 443 ++ "/api/v1"
  /\ nonce (clientOf (connect Sample.std "" 443 Sample.fresh emptyWorld))
     = Strings_random Sample.std (draws emptyWorld) 16
  /\ resultOf (connect Sample.std "" 443 Sample.fresh emptyWorld)
     <> Thrown (Error "domain name omit")
  /\ resultOf (connect Sample.std "" 443 Sample.fresh emptyWorld)
     <> Thrown (Error ("invalid port " ++ Js.numToString 443)).
Proof.
  apply (X6_connect_uses_the_default_domain Sample.std "" 443 Sample.fresh emptyWorld).
  lia.
Defined.

(** X7.  [#rawRequest] never returns and never reaches the network, and it
    leaves the client alone.  Given anything but a [Headers] instance in its
    third parameter it fails on [headers.append]; given a [Headers] instance
    it fails on the undeclared identifier [nil]. *)
Theorem X7_rawRequest_always_throws P method path headers payload c w :
  rawRequest P method path headers payload c w
  = (Thrown match headers with
            | JHeaders _ => ReferenceError "nil is not defined"
            | JUndefined | JNull =>
                TypeError ("Cannot read properties of " ++ Js.toString headers)
            | _ => TypeError "headers.append is not a function"
            end,
     c, w).
Proof. destruct headers; reflexivity. Qed.

(* ================================================================== *)
(** * What a signed request carries *)
(* ================================================================== *)

Section SignedRequest.

Variable P : Platform.

(** The request that [new Request(url, options)] builds for
    [#signatureRequest]: the URL as given, the JSON text of a truthy payload
    as body, and the headers of the [options]. *)
Lemma newRequest_auth url method payload rq :
  Fetch.newRequest url (authOptions method payload) = Returned rq ->
  req_url rq = url
  /\ req_body rq
     = (if Js.truthy payload then Some (JSON.stringifyStr payload) else None)
  /\ req_headers rq
     = (if Js.truthy payload
        then [("headerContentType", contentTypeJSON);
              ("Content-Type", Fetch.textPlain)]
        else []).
Proof.
  unfold authOptions, Fetch.newRequest.
  destruct (Js.truthy payload); cbn [init_method init_headers init_body];
    destruct (negb _ || _); try discriminate.
  - destruct (String.eqb _ "GET" || String.eqb _ "HEAD"); [discriminate|].
    intros H. injection H as H. subst rq. repeat split.
  - intros H. injection H as H. subst rq. repeat split.
Qed.

Lemma span_prefix_clean stop s :
  Text.allStr (fun a => negb (stop a)) (fst (Text.span stop s)) = true.
Proof.
  induction s as [|a r IH]; [reflexivity|].
  cbn [Text.span]. destruct (stop a) eqn:E; [reflexivity|].
  destruct (Text.span stop r) as [p q]. cbn [fst Text.allStr] in *.
  rewrite E, IH. reflexivity.
Qed.

(** A path name never reaches into the query or the fragment. *)
Lemma pathname_clean s p :
  URL.pathname s = Some p ->
  Text.allStr (fun a => negb (URL.endsPath a)) p = true.
Proof.
  unfold URL.pathname.
  destruct (URL.afterScheme s) as [rest|]; [|discriminate].
  assert (G : forall t, Some (fst (Text.span URL.endsPath t)) = Some p ->
                        Text.allStr (fun a => negb (URL.endsPath a)) p = true).
  { intros t H. injection H as H. subst p. apply span_prefix_clean. }
  destruct rest as [|a rest]; [apply G|].
  destruct (Ascii.eqb a "/") eqn:Ea;
    [apply Ascii.eqb_eq in Ea; subst a
    |destruct a as [[] [] [] [] [] [] [] []]; try discriminate Ea; apply G].
  destruct rest as [|b rest]; [apply G|].
  destruct (Ascii.eqb b "/") eqn:Eb;
    [apply Ascii.eqb_eq in Eb; subst b
    |destruct b as [[] [] [] [] [] [] [] []]; try discriminate Eb; apply G].
  destruct (Text.span URL.endsAuthority rest) as [authority tail].
  destruct (String.eqb authority ""); [discriminate|].
  pose proof (span_prefix_clean URL.endsPath tail) as C.
  destruct (String.eqb (fst (Text.span URL.endsPath tail)) "");
    intros H; injection H as H; subst p; [reflexivity|exact C].
Qed.

End SignedRequest.

(* ================================================================== *)
(** * The URLs the client builds *)
(* ================================================================== *)

Section PlainURLs.

Lemma allStr_app f s t :
  Text.allStr f (s ++ t) = Text.allStr f s && Text.allStr f t.
Proof.
  induction s as [|a s IH]; [reflexivity|].
  simpl. rewrite IH, andb_assoc. reflexivity.
Qed.

Lemma allStr_impl (f g : ascii -> bool) s :
  (forall a, f a = true -> g a = true) ->
  Text.allStr f s = true -> Text.allStr g s = true.
Proof.
  intros I. induction s as [|a s IH]; [reflexivity|].
  simpl. intros H. apply andb_true_iff in H. destruct H as [Ha Hs].
  rewrite (I a Ha), (IH Hs). reflexivity.
Qed.

Lemma string_app_assoc (s t u : string) : (s ++ t) ++ u = s ++ (t ++ u).
Proof. induction s as [|a s IH]; simpl; [reflexivity|rewrite IH; reflexivity]. Qed.

(** [span] stops at the first stop character and not before. *)
Lemma span_at_stop stop p a t :
  Text.allStr (fun x => negb (stop x)) p = true ->
  stop a = true ->
  Text.span stop (p ++ String a t) = (p, String a t).
Proof.
  intros Hp Ha. induction p as [|b p IH].
  - simpl. rewrite Ha. reflexivity.
  - simpl in Hp. apply andb_true_iff in Hp. destruct Hp as [Hb Hp].
    apply negb_true_iff in Hb. simpl. rewrite Hb, (IH Hp). reflexivity.
Qed.

Lemma span_no_stop stop s :
  Text.allStr (fun x => negb (stop x)) s = true ->
  Text.span stop s = (s, "").
Proof.
  induction s as [|b s IH]; [reflexivity|].
  simpl. intros H. apply andb_true_iff in H. destruct H as [Hb Hs].
  apply negb_true_iff in Hb. rewrite Hb, (IH Hs). reflexivity.
Qed.

Lemma letter_in_authority a :
  Text.isAlpha a = true -> negb (URL.endsAuthority a) = true.
Proof.
  destruct a as [[] [] [] [] [] [] [] []]; intros H; vm_compute in H;
    first [discriminate H | reflexivity].
Qed.

Lemma digit_in_authority a :
  Js.isDigit a = true -> negb (URL.endsAuthority a) = true.
Proof.
  destruct a as [[] [] [] [] [] [] [] []]; intros H; vm_compute in H;
    first [discriminate H | reflexivity].
Qed.

Lemma plain_in_path a :
  isPlainChar a = true -> negb (URL.endsPath a) = true.
Proof.
  destruct a as [[] [] [] [] [] [] [] []]; intros H; vm_compute in H;
    first [discriminate H | reflexivity].
Qed.

Lemma lower_is_letter a : Text.isLower a = true -> Text.isAlpha a = true.
Proof. intros H. unfold Text.isAlpha. rewrite H. apply orb_true_r. Qed.

Lemma lowerLetters_lettersOnly host :
  lowerLetters host = true -> lettersOnly host = true.
Proof. apply allStr_impl, lower_is_letter. Qed.

(** A positive number prints as digits. *)
Lemma uint_digits d :
  Text.allStr Js.isDigit (NilEmpty.string_of_uint d) = true.
Proof. induction d; simpl; try rewrite IHd; reflexivity. Qed.

Lemma numToString_digits n :
  0 < n -> Text.allStr Js.isDigit (Js.numToString n) = true.
Proof.
  destruct n as [|p|p]; try lia. intros _.
  unfold Js.numToString. simpl Z.to_int. simpl NilZero.string_of_int.
  unfold NilZero.string_of_uint.
  destruct (Pos.to_uint p); try apply uint_digits. reflexivity.
Qed.

(** The path of a URL that the client builds: the base URL of a host made
    of letters, then a plain path. *)
Lemma pathname_of_base host port rest :
  lettersOnly host = true ->
  0 < port ->
  plainPath rest = true ->
  URL.pathname (baseURL host port ++ rest) = Some ("/api/v" ++ APIVersion ++ rest).
Proof.
  intros L Hp R. unfold baseURL.
  set (h := if String.eqb "" host then defaultDomainHost else host).
  assert (Lh : lettersOnly h = true)
    by (subst h; destruct (String.eqb "" host); [reflexivity|exact L]).
  assert (Nh : h <> "")
    by (subst h; destruct host; [discriminate|simpl; discriminate]).
  rewrite !string_app_assoc.
  unfold URL.pathname.
  change (URL.afterScheme ("http://" ++ ?x))
    with (Some (String "/" (String "/" x))).
  cbv iota beta.
  change ("/api/v" ++ APIVersion ++ rest) with (String "/" ("api/v1" ++ rest)).
  replace (h ++ ":" ++ Js.numToString port ++ String "/" ("api/v1" ++ rest))
    with ((h ++ ":" ++ Js.numToString port) ++ String "/" ("api/v1" ++ rest))
    by (rewrite !string_app_assoc; reflexivity).
  rewrite span_at_stop; [| |reflexivity].
  - destruct h as [|a h]; [contradiction|].
    change (String.eqb ((String a h ++ ":" ++ Js.numToString port)) "") with false.
    cbv iota.
    rewrite span_no_stop; [reflexivity|].
    change (String "/" ("api/v1" ++ rest)) with ("/api/v1" ++ rest).
    rewrite allStr_app. rewrite (allStr_impl _ _ rest plain_in_path R).
    reflexivity.
  - rewrite allStr_app. apply andb_true_iff. split.
    + apply (allStr_impl _ _ h letter_in_authority Lh).
    + change (":" ++ Js.numToString port) with (String ":" (Js.numToString port)).
      simpl Text.allStr.
      apply (allStr_impl _ _ _ digit_in_authority (numToString_digits port Hp)).
Qed.

End PlainURLs.

(** X8.  The proof headers of a signed request say what was signed.  The
    signature header is the base64 text of the signature made, with the
    client's key, over the JSON text of the signed object; the timestamp
    header is the object's timestamp, read from the clock once in the call;
    the session header is the object's id; the algorithm is ed25519 in both.
    Building the request sends nothing. *)
Theorem X8_headers_match_signed_content P method url payload c w request c' w' :
  signatureRequest P method url payload c w = (Returned request, c', w') ->
  exists content sg,
    signed w' = (signed w ++ [content])%list
    /\ ed25519_sign P (JSON.stringifyStr content) (privateKey c) = Some sg
    /\ Headers.get (req_headers request) headerNameSignature = Some (Runtime.btoa sg)
    /\ field "timestamp" content = JStr (toISOString P (dates w))
    /\ Headers.get (req_headers request) headerNameTimestamp
       = Some (toISOString P (dates w))
    /\ Headers.get (req_headers request) headerNameSession
       = Some (Js.toString (field "id" content))
    /\ field "signature_algorithm" content = JStr "ed25519"
    /\ Headers.get (req_headers request) headerNameSignatureAlgorithm = Some "ed25519"
    /\ dates w' = S (dates w)
    /\ sent w' = sent w.
Proof.
  rewrite signatureRequest_eq.
  destruct (Runtime.newURL url) as [pathname|e]; [|discriminate].
  cbv zeta.
  destruct (Fetch.newRequest _ _) as [rq|e] eqn:R; [|discriminate].
  destruct (ed25519_sign P _ _) as [sg|] eqn:S; [|discriminate].
  intros H. injection H as Hr _ Hw. subst request w'.
  apply newRequest_auth in R. destruct R as (_ & _ & Hh).
  exists (authContent c method pathname (toISOString P (dates w)) payload), sg.
  split; [reflexivity|]. split; [exact S|].
  unfold withProof, Fetch.appendHeader. cbn [req_headers]. rewrite Hh.
  destruct (Js.truthy payload); repeat split.
Qed.

Lemma X8_headers_match_signed_content_witness :
  exists content sg,
    signed (worldOf Runs.postCondition)
    = (signed (snd Sample.attempted) ++ [content])%list
    /\ ed25519_sign Sample.std (JSON.stringifyStr content)
         (privateKey (fst Sample.attempted)) = Some sg
    /\ Headers.get (req_headers
                      (requestOf Runs.postCondition)) headerNameSignature = Some (Runtime.btoa sg)
    /\ field "timestamp" content
       = JStr (toISOString Sample.std (dates (snd Sample.attempted)))
    /\ Headers.get (req_headers
                      (requestOf Runs.postCondition)) headerNameTimestamp
       = Some (toISOString Sample.std (dates (snd Sample.attempted)))
    /\ Headers.get (req_headers
                      (requestOf Runs.postCondition)) headerNameSession
       = Some (Js.toString (field "id" content))
    /\ field "signature_algorithm" content = JStr "ed25519"
    /\ Headers.get (req_headers
                      (requestOf Runs.postCondition)) headerNameSignatureAlgorithm = Some "ed25519"
    /\ dates (worldOf Runs.postCondition) = S (dates (snd Sample.attempted))
    /\ sent (worldOf Runs.postCondition) = sent (snd Sample.attempted).
Proof.
  eapply (X8_headers_match_signed_content Sample.std (JStr "post")
            (JStr Runs.sessionsURL) Runs.condition
            (fst Sample.attempted) (snd Sample.attempted)).
  vm_compute. reflexivity.
Defined.

(** X9.  The signed object of an authenticated request, for a URL as the
    client builds them: the base URL of a host made of letters (localhost
    when empty) and a port in 1..65535, followed by a path made of letters,
    digits, [/], [-] and [_].  The object has the same eight properties in
    the same order, whether or not the body digest was assigned; it carries
    the method as given and the access id, and its url is the path alone,
    "/api/v1" and what follows, without scheme, host or port. *)
Theorem X9_signed_object_layout
  P method host port rest payload c w request c' w' :
  lettersOnly host = true ->
  1 <= port <= 65535 ->
  plainPath rest = true ->
  signatureRequest P method (JStr (baseURL host port ++ rest)) payload c w
  = (Returned request, c', w') ->
  exists content,
    signed w' = (signed w ++ [content])%list
    /\ keysOf content
       = ["id"; "method"; "url"; "body"; "access"; "timestamp"; "nonce";
          "signature_algorithm"]
    /\ field "method" content = method
    /\ field "access" content = JStr (accessID c)
    /\ field "url" content = JStr ("/api/v" ++ APIVersion ++ rest).
Proof.
  intros L Hp R.
  rewrite signatureRequest_eq. unfold Runtime.newURL. cbn [Js.toString].
  rewrite (pathname_of_base host port rest L ltac:(lia) R).
  cbv zeta.
  destruct (Fetch.newRequest _ _) as [rq|e]; [|discriminate].
  destruct (ed25519_sign P _ _) as [sg|]; [|discriminate].
  intros H. injection H as _ _ Hw. subst w'.
  eexists. split; [reflexivity|]. repeat split.
Qed.

Lemma X9_signed_object_layout_witness :
  exists content,
    signed (worldOf Runs.putNoPayload)
    = (signed (snd Sample.attempted) ++ [content])%list
    /\ keysOf content
       = ["id"; "method"; "url"; "body"; "access"; "timestamp"; "nonce";
          "signature_algorithm"]
    /\ field "method" content = JStr "put"
    /\ field "access" content = JStr (accessID (fst Sample.attempted))
    /\ field "url" content = JStr ("/api/v" ++ APIVersion ++ "/sessions/").
Proof.
  eapply (X9_signed_object_layout Sample.std (JStr "put") "localhost" 8080
            "/sessions/" JNull (fst Sample.attempted) (snd Sample.attempted)).
  - reflexivity.
  - lia.
  - reflexivity.
  - vm_compute. reflexivity.
Defined.

(** X10.  What is hashed is what is sent.  The body of the request is the
    JSON text of a truthy payload, otherwise there is none.  Under post,
    put, delete and patch the signed "body" field is the digest of exactly
    the body sent (of the empty string when none is sent); under any other
    method a body that is sent is not covered by the signature: the field
    stays empty. *)
Theorem X10_digest_covers_the_body_sent P method url payload c w request c' w' :
  signatureRequest P method url payload c w = (Returned request, c', w') ->
  exists content,
    signed w' = (signed w ++ [content])%list
    /\ req_body request
       = (if Js.truthy payload then Some (JSON.stringifyStr payload) else None)
    /\ field "body" content
       = JStr (if isBodyMethod method
               then Runtime.sha256Base64
                      match req_body request with Some b => b | None => "" end
               else "").
Proof.
  rewrite signatureRequest_eq.
  destruct (Runtime.newURL url) as [pathname|e]; [|discriminate].
  cbv zeta.
  destruct (Fetch.newRequest _ _) as [rq|e] eqn:R; [|discriminate].
  destruct (ed25519_sign P _ _) as [sg|]; [|discriminate].
  intros H. injection H as Hr _ Hw. subst request w'.
  apply newRequest_auth in R. destruct R as (_ & Hb & _).
  exists (authContent c method pathname (toISOString P (dates w)) payload).
  split; [reflexivity|].
  unfold withProof, Fetch.appendHeader. cbn [req_body].
  rewrite Hb. split; [reflexivity|].
  cbn [field authContent Js.lookup String.eqb Ascii.eqb Bool.eqb].
  destruct (Js.truthy payload); reflexivity.
Qed.

Lemma X10_digest_covers_the_body_sent_witness :
  exists content,
    signed (worldOf Runs.postCondition)
    = (signed (snd Sample.attempted) ++ [content])%list
    /\ req_body (requestOf Runs.postCondition)
       = (if Js.truthy Runs.condition
          then Some (JSON.stringifyStr Runs.condition) else None)
    /\ field "body" content
       = JStr (if isBodyMethod (JStr "post")
               then Runtime.sha256Base64
                      match req_body (requestOf Runs.postCondition)
                      with Some b => b | None => "" end
               else "").
Proof.
  eapply (X10_digest_covers_the_body_sent Sample.std (JStr "post")
            (JStr Runs.sessionsURL) Runs.condition
            (fst Sample.attempted) (snd Sample.attempted)).
  vm_compute. reflexivity.
Defined.

(* ================================================================== *)
(** * The dispatchers *)
(* ================================================================== *)

Section Dispatch.

Variable P : Platform.

(** Building a request touches neither the client nor the network, and a
    failed build signs nothing. *)
Lemma signatureRequest_is_local method url payload c w :
  clientOf (signatureRequest P method url payload c w) = c
  /\ sent (worldOf (signatureRequest P method url payload c w)) = sent w
  /\ (forall e, resultOf (signatureRequest P method url payload c w) = Thrown e ->
                signed (worldOf (signatureRequest P method url payload c w))
                = signed w).
Proof.
  rewrite signatureRequest_eq.
  destruct (Runtime.newURL url) as [pathname|e]; [|repeat split].
  cbv zeta.
  destruct (Fetch.newRequest _ _) as [rq|e]; [|repeat split].
  destruct (ed25519_sign P _ _) as [sg|]; repeat split.
  intros e H. discriminate H.
Qed.


End Dispatch.

(** X11.  [#doRequest] and [#doRequestWithPayload] report no failure of the
    backend.  Once the request is built they send it, exactly one, and
    resolve to [undefined]: the answer is not waited for, so a network
    failure, a bad status or an error envelope never reaches the caller.
    [#doRequest] is the same call with a null payload. *)
Theorem X11_doRequest_reports_no_failure P method url payload c w request c' w' :
  signatureRequest P method url payload c w = (Returned request, c', w') ->
  doRequestWithPayload P method url payload c w
  = (Returned JUndefined, c, withSent request w')
  /\ sent (withSent request w') = (sent w ++ [request])%list
  /\ doRequest P method url = doRequestWithPayload P method url JNull.
Proof.
  intros H.
  destruct (signatureRequest_is_local P method url payload c w) as (Hc & Hs & _).
  rewrite H in Hc, Hs. unfold clientOf, worldOf in Hc, Hs. simpl in Hc, Hs.
  subst c'. split; [|split; [|reflexivity]].
  - unfold doRequestWithPayload, bind. rewrite H. apply validateResult_eq.
  - unfold withSent. simpl. rewrite Hs. reflexivity.
Qed.

Lemma X11_doRequest_reports_no_failure_witness :
  doRequestWithPayload Env.offline (JStr "put") (JStr Runs.sessionsURL)
    Runs.condition (fst Sample.attempted) (snd Sample.attempted)
  = (Returned JUndefined, fst Sample.attempted,
     withSent
       (requestOf Env.putOffline)
       (worldOf Env.putOffline))
  /\ sent (withSent
             (requestOf Env.putOffline)
             (worldOf Env.putOffline))
     = (sent (snd Sample.attempted)
        ++ [requestOf Env.putOffline])%list
  /\ doRequest Env.offline (JStr "put") (JStr Runs.sessionsURL)
     = doRequestWithPayload Env.offline (JStr "put") (JStr Runs.sessionsURL) JNull.
Proof.
  eapply (X11_doRequest_reports_no_failure Env.offline (JStr "put")
            (JStr Runs.sessionsURL) Runs.condition
            (fst Sample.attempted) (snd Sample.attempted)).
  vm_compute. reflexivity.
Defined.



Example peek_at_a_missing_page :
  resultOf (peekRequest (Sample.platform Sample.notFound) (JStr "get")
              (JStr Runs.sessionsURL) (fst Sample.attempted) (snd Sample.attempted))
  = Returned false.
Proof. vm_compute. reflexivity. Qed.

(** X13.  [#fetchResponse] and [#fetchResponseWithPayload] never hand data
    back.  Once the request is built they send it, exactly one; a failure of
    the network is thrown with the network's reason, and any answer of the
    backend ends in the [TypeError] of [resp.ok()].  [#fetchResponse] is the
    same call with a null payload. *)
Theorem X13_fetchResponse_never_returns P method url payload c w request c' w' :
  signatureRequest P method url payload c w = (Returned request, c', w') ->
  fetchResponseWithPayload P method url payload c w
  = (Thrown (TypeError match transport P (sent w) request with
                       | NetworkFailure reason => reason
                       | Responded _ => "resp.ok is not a function"
                       end),
     c, withSent request w')
  /\ sent (withSent request w') = (sent w ++ [request])%list
  /\ fetchResponse P method url = fetchResponseWithPayload P method url JNull.
Proof.
  intros H.
  destruct (signatureRequest_is_local P method url payload c w) as (Hc & Hs & _).
  rewrite H in Hc, Hs. unfold clientOf, worldOf in Hc, Hs. simpl in Hc, Hs.
  subst c'. split; [|split; [|reflexivity]].
  - unfold fetchResponseWithPayload, bind. rewrite H, getResult_eq, Hs. reflexivity.
  - unfold withSent. simpl. rewrite Hs. reflexivity.
Qed.

Lemma X13_fetchResponse_never_returns_witness :
  fetchResponseWithPayload Env.offline (JStr "post") (JStr Runs.sessionsURL)
    Runs.condition (fst Sample.attempted) (snd Sample.attempted)
  = (Thrown (TypeError
       match transport Env.offline (sent (snd Sample.attempted))
               (requestOf Env.postOffline) with
       | NetworkFailure reason => reason
       | Responded _ => "resp.ok is not a function"
       end),
     fst Sample.attempted,
     withSent
       (requestOf Env.postOffline)
       (worldOf Env.postOffline))
  /\ sent (withSent
             (requestOf Env.postOffline)
             (worldOf Env.postOffline))
     = (sent (snd Sample.attempted)
        ++ [requestOf Env.postOffline])%list
  /\ fetchResponse Env.offline (JStr "post") (JStr Runs.sessionsURL)
     = fetchResponseWithPayload Env.offline (JStr "post") (JStr Runs.sessionsURL) JNull.
Proof.
  eapply (X13_fetchResponse_never_returns Env.offline (JStr "post")
            (JStr Runs.sessionsURL) Runs.condition
            (fst Sample.attempted) (snd Sample.attempted)).
  vm_compute. reflexivity.
Defined.

Example fetch_while_offline :
  resultOf (fetchResponseWithPayload Env.offline (JStr "post")
              (JStr Runs.sessionsURL) Runs.condition
              (fst Sample.attempted) (snd Sample.attempted))
  = Thrown (TypeError "Failed to fetch").
Proof. vm_compute. reflexivity. Qed.

(** X14.  When the request cannot be built (a URL with no scheme, a
    refused method, a signer that fails), every dispatcher throws the very
    error of [#signatureRequest]: nothing is sent, nothing is signed, and the
    client is as it was. *)
Theorem X14_build_failure_reaches_the_caller P method url payload c w e c' w' :
  signatureRequest P method url payload c w = (Thrown e, c', w') ->
  doRequestWithPayload P method url payload c w = (Thrown e, c, w')
  /\ fetchResponseWithPayload P method url payload c w = (Thrown e, c, w')
  /\ sent w' = sent w
  /\ signed w' = signed w.
Proof.
  intros H.
  destruct (signatureRequest_is_local P method url payload c w) as (Hc & Hs & Hg).
  specialize (Hg e). rewrite H in Hc, Hs, Hg.
  unfold clientOf, worldOf, resultOf in Hc, Hs, Hg. simpl in Hc, Hs, Hg.
  subst c'. repeat split.
  - unfold doRequestWithPayload, bind. rewrite H. reflexivity.
  - unfold fetchResponseWithPayload, bind. rewrite H. reflexivity.
  - exact Hs.
  - apply Hg. reflexivity.
Qed.

Lemma X14_build_failure_reaches_the_caller_witness :
  doRequestWithPayload Sample.std (JStr "post") (JStr "/status") Runs.condition
    Sample.fresh emptyWorld
  = (Thrown (TypeError "Invalid URL"), Sample.fresh, emptyWorld)
  /\ fetchResponseWithPayload Sample.std (JStr "post") (JStr "/status")
       Runs.condition Sample.fresh emptyWorld
     = (Thrown (TypeError "Invalid URL"), Sample.fresh, emptyWorld)
  /\ sent emptyWorld = sent emptyWorld
  /\ signed emptyWorld = signed emptyWorld.
Proof.
  apply (X14_build_failure_reaches_the_caller Sample.std (JStr "post")
           (JStr "/status") Runs.condition Sample.fresh emptyWorld
           (TypeError "Invalid URL") Sample.fresh emptyWorld).
  reflexivity.
Defined.

(* ================================================================== *)
(** * A connection attempt followed by a query *)
(* ================================================================== *)

Section AfterAttempt.

Variable P : Platform.

Lemma letter_starts_authority a :
  Text.isAlpha a = true -> URL.endsAuthority a = false.
Proof.
  destruct a as [[] [] [] [] [] [] [] []]; intros H; vm_compute in H;
    first [discriminate H | reflexivity].
Qed.

Lemma http_url_parses a t :
  URL.endsAuthority a = false ->
  exists path, URL.pathname ("http://" ++ String a t) = Some path.
Proof.
  intros H. unfold URL.pathname.
  change (URL.afterScheme ("http://" ++ String a t))
    with (Some (String "/" (String "/" (String a t)))).
  cbv iota beta. cbn [Text.span]. rewrite H.
  destruct (Text.span URL.endsAuthority t) as [p q].
  change (String.eqb (String a p) "") with false. cbv iota.
  eexists. reflexivity.
Qed.

Lemma append_assoc (s t u : string) : (s ++ t) ++ u = s ++ (t ++ u).
Proof. induction s as [|a s IH]; simpl; [reflexivity|rewrite IH; reflexivity]. Qed.

(** The base URL of a host made of letters, with anything after it, is a
    URL that [new URL] accepts. *)
Lemma baseURL_parses host port rest :
  lettersOnly host = true ->
  exists path, URL.pathname (baseURL host port ++ rest) = Some path.
Proof.
  intros L. unfold baseURL, defaultDomainHost.
  rewrite !append_assoc.
  destruct host as [|a r].
  - change (String.eqb "" "") with true. cbv iota.
    apply (http_url_parses "l"), letter_starts_authority. reflexivity.
  - change (String.eqb "" (String a r)) with false. cbv iota.
    unfold lettersOnly in L. cbn [Text.allStr] in L.
    apply andb_true_iff in L. destruct L as [La _].
    apply (http_url_parses a), letter_starts_authority, La.
Qed.

End AfterAttempt.

(** X15.  No call checks that a session exists.  Take a client with no
    session id, a host in lower-case letters (or the default host), a domain
    made of letters, digits, [-] and [_], a port in 1..65535 other than 80,
    and a signer that signs.  After a [connectToDomain] call that passed
    validation and failed, [querySchemas] with two safe integers signs and
    sends one POST to base URL + "/domains/" + domain + "schemas/", with the
    JSON text of {offset, limit} as body and an empty session header. *)
Theorem X15_query_follows_a_failed_attempt
  P host port domainName c w e c1 w1 offset limit :
  lowerLetters host = true ->
  plainName domainName = true ->
  validInput port domainName = true ->
  port <> 80 ->
  safeInteger offset = true ->
  safeInteger limit = true ->
  sessionID c = JStr "" ->
  (forall text, ed25519_sign P text (privateKey c) <> None) ->
  connectToDomain P host port domainName c w = (Thrown e, c1, w1) ->
  exists request,
    sent (worldOf (querySchemas P (JNum offset) (JNum limit) c1 w1))
    = (sent w ++ [request])%list
    /\ req_url request
       = baseURL host port ++ "/domains/" ++ domainName ++ "schemas/"
    /\ req_method request = "POST"
    /\ req_body request
       = Some (JSON.stringifyStr
                 (JObj [("offset", JNum offset); ("limit", JNum limit)]))
    /\ Headers.get (req_headers request) headerNameSession = Some ""
    /\ clientOf (querySchemas P (JNum offset) (JNum limit) c1 w1) = c1.
Proof.
  intros L _ V _ _ _ I S H.
  apply lowerLetters_lettersOnly in L.
  destruct (connectToDomain_validated P host port domainName c w V)
    as (e0 & w0 & H0 & Hs).
  rewrite H0 in H. injection H as _ Hc Hw. subst c1 w1.
  rewrite querySchemas_eq. cbv zeta.
  change (apiBase (attempt P host port domainName c w)) with (baseURL host port).
  change (domain (attempt P host port domainName c w)) with domainName.
  rewrite signatureRequest_eq.
  destruct (baseURL_parses host port ("/domains/" ++ domainName ++ "schemas/") L)
    as [path U].
  unfold Runtime.newURL. cbn [Js.toString]. rewrite U. cbv zeta.
  rewrite newRequest_post by reflexivity.
  change (privateKey (attempt P host port domainName c w)) with (privateKey c).
  destruct (ed25519_sign P _ (privateKey c)) as [sg|] eqn:G;
    [|exfalso; exact (S _ G)].
  eexists. split; [cbn [worldOf snd withSent sent withSigned tick]; rewrite Hs;
                   reflexivity|].
  unfold withProof, Fetch.appendHeader. cbn [req_url req_method req_body req_headers].
  change (sessionID (attempt P host port domainName c w)) with (sessionID c).
  rewrite I. repeat split.
Qed.

Lemma X15_query_follows_a_failed_attempt_witness :
  exists request,
    sent (worldOf (querySchemas Sample.std (JNum 5) (JNum 10)
                     (clientOf Env.connectLocal) (worldOf Env.connectLocal)))
    = (sent emptyWorld ++ [request])%list
    /\ req_url request
       = baseURL "" 9000 ++ "/domains/" ++ "chain" ++ "schemas/"
    /\ req_method request = "POST"
    /\ req_body request
       = Some (JSON.stringifyStr (JObj [("offset", JNum 5); ("limit", JNum 10)]))
    /\ Headers.get (req_headers request) headerNameSession = Some ""
    /\ clientOf (querySchemas Sample.std (JNum 5) (JNum 10)
                   (clientOf Env.connectLocal) (worldOf Env.connectLocal))
       = clientOf Env.connectLocal.
Proof.
  eapply (X15_query_follows_a_failed_attempt Sample.std "" 9000 "chain"
            Sample.fresh emptyWorld).
  - reflexivity.
  - reflexivity.
  - reflexivity.
  - discriminate.
  - reflexivity.
  - reflexivity.
  - reflexivity.
  - intros text. discriminate.
  - vm_compute. reflexivity.
Defined.

Example query_request_of_the_sample :
  exists request,
    sent (worldOf (querySchemas Sample.std (JNum 5) (JNum 10)
                     (clientOf Env.connectLocal) (worldOf Env.connectLocal)))
    = [request]
    /\ req_url request = "http://localhost:9000/api/v1/domains/chainschemas/"
    /\ req_body request = Some (Sample.js "{'offset':5,'limit':10}").
Proof. eexists. repeat split; vm_compute; reflexivity. Qed.

(** X16.  A signer that fails stops every call before the network.  With
    valid input [connectToDomain] throws the signer's failure after it has
    stored the base URL, the domain and a new nonce: nothing is signed and
    nothing is sent.  [querySchemas] throws it too, unless the URL was
    refused first, and it sends and signs nothing either. *)
Theorem X16_signer_failure_stops_the_call
  P host port domainName c w queryStart maxRecord :
  (forall text, ed25519_sign P text (privateKey c) = None) ->
  validInput port domainName = true ->
  connectToDomain P host port domainName c w
  = (Thrown (PrimitiveFailure "ed25519.sign"),
     attempt P host port domainName c w, tick (drew w))
  /\ signed (tick (drew w)) = signed w
  /\ sent (tick (drew w)) = sent w
  /\ sent (worldOf (querySchemas P queryStart maxRecord c w)) = sent w
  /\ signed (worldOf (querySchemas P queryStart maxRecord c w)) = signed w
  /\ (resultOf (querySchemas P queryStart maxRecord c w)
      = Thrown (PrimitiveFailure "ed25519.sign")
      \/ resultOf (querySchemas P queryStart maxRecord c w)
         = Thrown (TypeError "Invalid URL")).
Proof.
  intros S V. split; [|split; [reflexivity|split; [reflexivity|]]].
  - rewrite connectToDomain_eq. unfold validInput in V.
    destruct (String.eqb "" domainName); [discriminate V|].
    destruct (Z.leb port 0 || Z.gtb port 0xFFFF); [discriminate V|].
    cbv zeta. rewrite S. reflexivity.
  - rewrite querySchemas_eq. cbv zeta. rewrite signatureRequest_eq.
    unfold Runtime.newURL.
    destruct (URL.pathname _) as [path|]; [|repeat split; right; reflexivity].
    cbv zeta. rewrite newRequest_post by reflexivity. rewrite S.
    repeat split. left. reflexivity.
Qed.

Lemma X16_signer_failure_stops_the_call_witness :
  connectToDomain Env.unsigned "localhost" 8080 "system" Sample.fresh emptyWorld
  = (Thrown (PrimitiveFailure "ed25519.sign"),
     attempt Env.unsigned "localhost" 8080 "system" Sample.fresh emptyWorld,
     tick (drew emptyWorld))
  /\ signed (tick (drew emptyWorld)) = signed emptyWorld
  /\ sent (tick (drew emptyWorld)) = sent emptyWorld
  /\ sent (worldOf (querySchemas Env.unsigned (JNum 0) (JNum 20)
                      Sample.fresh emptyWorld)) = sent emptyWorld
  /\ signed (worldOf (querySchemas Env.unsigned (JNum 0) (JNum 20)
                        Sample.fresh emptyWorld)) = signed emptyWorld
  /\ (resultOf (querySchemas Env.unsigned (JNum 0) (JNum 20)
                  Sample.fresh emptyWorld)
      = Thrown (PrimitiveFailure "ed25519.sign")
      \/ resultOf (querySchemas Env.unsigned (JNum 0) (JNum 20)
                     Sample.fresh emptyWorld)
         = Thrown (TypeError "Invalid URL")).
Proof.
  apply (X16_signer_failure_stops_the_call Env.unsigned "localhost" 8080 "system"
           Sample.fresh emptyWorld (JNum 0) (JNum 20)).
  - reflexivity.
  - reflexivity.
Defined.

Example query_with_a_failing_signer :
  resultOf (querySchemas Env.unsigned (JNum 0) (JNum 20)
              (fst Sample.attempted) (snd Sample.attempted))
  = Thrown (PrimitiveFailure "ed25519.sign").
Proof. vm_compute. reflexivity. Qed.

(* ================================================================== *)
(** * Doing it twice *)
(* ================================================================== *)

(** X17.  A new connection attempt replaces the data of the one before.
    After two attempts that both passed validation, the client holds the
    base URL and the domain of the second and a nonce from the draw after
    the first attempt's; the session id, the timeout and the local address
    are still those from before the first attempt, and no request was
    sent. *)
Theorem X17_a_new_attempt_replaces_the_old P h1 p1 d1 h2 p2 d2 c w e c1 w1 :
  validInput p1 d1 = true ->
  validInput p2 d2 = true ->
  connectToDomain P h1 p1 d1 c w = (Thrown e, c1, w1) ->
  nonce c1 = Strings_random P (draws w) 16
  /\ apiBase (clientOf (connectToDomain P h2 p2 d2 c1 w1)) = baseURL h2 p2
  /\ domain (clientOf (connectToDomain P h2 p2 d2 c1 w1)) = d2
  /\ nonce (clientOf (connectToDomain P h2 p2 d2 c1 w1))
     = Strings_random P (S (draws w)) 16
  /\ sessionID (clientOf (connectToDomain P h2 p2 d2 c1 w1)) = sessionID c
  /\ timeout (clientOf (connectToDomain P h2 p2 d2 c1 w1)) = timeout c
  /\ localIP (clientOf (connectToDomain P h2 p2 d2 c1 w1)) = localIP c
  /\ sent (worldOf (connectToDomain P h2 p2 d2 c1 w1)) = sent w.
Proof.
  intros V1 V2 H.
  destruct (connectToDomain_validated P h1 p1 d1 c w V1) as (e0 & w0 & H0 & S0).
  destruct (connectToDomain_signs P h1 p1 d1 c w) as (_ & _ & _ & _ & D).
  rewrite V1 in D. rewrite H in H0, D. unfold worldOf in D. simpl in D.
  injection H0 as _ Hc Hw. subst c1 w0.
  destruct (connectToDomain_validated P h2 p2 d2
              (attempt P h1 p1 d1 c w) w1 V2) as (e2 & w2 & H2 & S2).
  rewrite H2. unfold clientOf, worldOf. simpl fst. simpl snd.
  unfold attempt at 2 3 4 5 6 7. rewrite D, S2, S0. repeat split.
Qed.

Lemma X17_a_new_attempt_replaces_the_old_witness :
  nonce (clientOf Runs.connectRun) = Strings_random Sample.std (draws emptyWorld) 16
  /\ apiBase (clientOf (connectToDomain Sample.std "ledger" 443 "chain"
                          (clientOf Runs.connectRun) (worldOf Runs.connectRun)))
     = baseURL "ledger" 443
  /\ domain (clientOf (connectToDomain Sample.std "ledger" 443 "chain"
                         (clientOf Runs.connectRun) (worldOf Runs.connectRun)))
     = "chain"
  /\ nonce (clientOf (connectToDomain Sample.std "ledger" 443 "chain"
                        (clientOf Runs.connectRun) (worldOf Runs.connectRun)))
     = Strings_random Sample.std (S (draws emptyWorld)) 16
  /\ sessionID (clientOf (connectToDomain Sample.std "ledger" 443 "chain"
                            (clientOf Runs.connectRun) (worldOf Runs.connectRun)))
     = sessionID Sample.fresh
  /\ timeout (clientOf (connectToDomain Sample.std "ledger" 443 "chain"
                          (clientOf Runs.connectRun) (worldOf Runs.connectRun)))
     = timeout Sample.fresh
  /\ localIP (clientOf (connectToDomain Sample.std "ledger" 443 "chain"
                          (clientOf Runs.connectRun) (worldOf Runs.connectRun)))
     = localIP Sample.fresh
  /\ sent (worldOf (connectToDomain Sample.std "ledger" 443 "chain"
                      (clientOf Runs.connectRun) (worldOf Runs.connectRun)))
     = sent emptyWorld.
Proof.
  eapply (X17_a_new_attempt_replaces_the_old Sample.std
            "localhost" 8080 "system" "ledger" 443 "chain" Sample.fresh emptyWorld).
  - reflexivity.
  - reflexivity.
  - vm_compute. reflexivity.
Defined.

Example nonces_of_two_attempts :
  nonce (clientOf Runs.connectRun) = "aaaaaaaaaaaaaaaa"
  /\ nonce (clientOf (connectToDomain Sample.std "ledger" 443 "chain"
                        (clientOf Runs.connectRun) (worldOf Runs.connectRun)))
     = "bbbbbbbbbbbbbbbb".
Proof. split; vm_compute; reflexivity. Qed.

(** X18.  Signing the same request twice in a row gives two signed objects
    that differ in the timestamp alone: the id, the method, the url, the
    body digest, the access id, the nonce and the algorithm are the same,
    and the timestamps are two successive readings of the clock. *)
Theorem X18_resigning_changes_the_timestamp_only
  P method url payload c w r1 c1 w1 r2 c2 w2 :
  signatureRequest P method url payload c w = (Returned r1, c1, w1) ->
  signatureRequest P method url payload c1 w1 = (Returned r2, c2, w2) ->
  exists k1 k2,
    signed w2 = (signed w ++ [k1; k2])%list
    /\ field "timestamp" k1 = JStr (toISOString P (dates w))
    /\ field "timestamp" k2 = JStr (toISOString P (S (dates w)))
    /\ Forall (fun name => field name k1 = field name k2)
         ["id"; "method"; "url"; "body"; "access"; "nonce"; "signature_algorithm"]
    /\ keysOf k1 = keysOf k2.
Proof.
  rewrite !signatureRequest_eq.
  destruct (Runtime.newURL url) as [pathname|e]; [|discriminate].
  cbv zeta.
  destruct (Fetch.newRequest _ _) as [rq|e]; [|discriminate].
  destruct (ed25519_sign P _ (privateKey c)) as [sg1|]; [|discriminate].
  intros H1. injection H1 as _ Hc Hw. subst c1 w1.
  destruct (ed25519_sign P _ (privateKey c)) as [sg2|]; [|discriminate].
  intros H2. injection H2 as _ _ Hw. subst w2.
  exists (authContent c method pathname (toISOString P (dates w)) payload),
         (authContent c method pathname (toISOString P (S (dates w))) payload).
  split; [cbn [signed withSigned tick]; rewrite <- app_assoc; reflexivity|].
  split; [reflexivity|]. split; [reflexivity|].
  split; [repeat constructor|reflexivity].
Qed.

Lemma X18_resigning_changes_the_timestamp_only_witness :
  exists k1 k2,
    signed (worldOf (signatureRequest Sample.std (JStr "post")
                       (JStr Runs.sessionsURL) Runs.condition
                       (clientOf Runs.postCondition) (worldOf Runs.postCondition)))
    = (signed (snd Sample.attempted) ++ [k1; k2])%list
    /\ field "timestamp" k1
       = JStr (toISOString Sample.std (dates (snd Sample.attempted)))
    /\ field "timestamp" k2
       = JStr (toISOString Sample.std (S (dates (snd Sample.attempted))))
    /\ Forall (fun name => field name k1 = field name k2)
         ["id"; "method"; "url"; "body"; "access"; "nonce"; "signature_algorithm"]
    /\ keysOf k1 = keysOf k2.
Proof.
  eapply (X18_resigning_changes_the_timestamp_only Sample.std (JStr "post")
            (JStr Runs.sessionsURL) Runs.condition
            (fst Sample.attempted) (snd Sample.attempted)).
  - vm_compute. reflexivity.
  - vm_compute. reflexivity.
Defined.
